(** * Stock-Prediction: the prediction-date logic of [utils/utils.py] and
      [model/keras_models/utils.py]

    The development has four parts:
    - [datetime]: the fragment of Python's [datetime.date] the program uses
      (construction, ordinals, weekday, comparison, [timedelta] arithmetic,
      ISO formatting and [strptime] with the format ['%Y-%m-%d']);
    - [utils]: the functions of [utils/utils.py];
    - [keras_utils]: the functions of [model/keras_models/utils.py];
    - [keras_model]: the notice printed by [KerasModel.predict].

    Python exceptions are modelled by a result type, the system clock by a
    [world] the functions read, and [str] by [string] (characters below
    256; of these only ["0"] to ["9"] are decimal digits for [\d] and
    [int]).  The [datetime] part follows the algorithms of CPython's
    [datetime] and [_strptime] modules. *)

From Stdlib Require Import ZArith Lia List Ascii String Bool.
Import ListNotations.
Open Scope Z_scope.

(** ** Exceptions *)

(** The built-in exceptions the code can raise, plus the exceptions [U] a
    module defines itself. *)
Inductive exn (U : Type) : Type :=
| OverflowError
| ValueError
| IndexError
| UserError (u : U).
Arguments OverflowError {U}.
Arguments ValueError {U}.
Arguments IndexError {U}.
Arguments UserError {U} u.

Inductive result (E A : Type) : Type :=
| Ok (a : A)
| Raise (e : E).
Arguments Ok {E A} a.
Arguments Raise {E A} e.

Definition bind {E A B} (r : result E A) (k : A -> result E B) : result E B :=
  match r with
  | Ok a => k a
  | Raise e => Raise e
  end.

Notation "x <- r ;; k" := (bind r (fun x => k))
  (at level 61, r at next level, right associativity).

(** ** Python's [datetime.date] *)
Module datetime.

Definition MINYEAR : Z := 1.
Definition MAXYEAR : Z := 9999.
Definition _MAXORDINAL : Z := 3652059.

Record date : Type := mkdate { year : Z; month : Z; day : Z }.

Definition _DAYS_IN_MONTH : list Z :=
  [-1; 31; 28; 31; 30; 31; 30; 31; 31; 30; 31; 30; 31].

Definition _DAYS_BEFORE_MONTH : list Z :=
  [-1; 0; 31; 59; 90; 120; 151; 181; 212; 243; 273; 304; 334].

(** [l[i]] for an index [i] within the list. *)
Definition getitem (l : list Z) (i : Z) : Z := nth (Z.to_nat i) l 0.

Definition b2z (b : bool) : Z := if b then 1 else 0.

(** [year % 4 == 0 and (year % 100 != 0 or year % 400 == 0)] *)
Definition _is_leap (y : Z) : bool :=
  (y mod 4 =? 0) && (negb (y mod 100 =? 0) || (y mod 400 =? 0)).

Definition _days_before_year (y : Z) : Z :=
  let y := y - 1 in
  y * 365 + y / 4 - y / 100 + y / 400.

Definition _days_in_month (y m : Z) : Z :=
  if (m =? 2) && _is_leap y then 29 else getitem _DAYS_IN_MONTH m.

Definition _days_before_month (y m : Z) : Z :=
  getitem _DAYS_BEFORE_MONTH m + b2z ((2 <? m) && _is_leap y).

Definition _ymd2ord (y m d : Z) : Z :=
  _days_before_year y + _days_before_month y m + d.

Definition _DI400Y : Z := 146097.
Definition _DI100Y : Z := 36524.
Definition _DI4Y : Z := 1461.

Definition _ord2ymd (n : Z) : Z * Z * Z :=
  let n := n - 1 in
  let n400 := n / _DI400Y in
  let n := n mod _DI400Y in
  let year := n400 * 400 + 1 in
  let n100 := n / _DI100Y in
  let n := n mod _DI100Y in
  let n4 := n / _DI4Y in
  let n := n mod _DI4Y in
  let n1 := n / 365 in
  let n := n mod 365 in
  let year := year + (n100 * 100 + n4 * 4 + n1) in
  if (n1 =? 4) || (n100 =? 4) then (year - 1, 12, 31)
  else
    let leapyear := (n1 =? 3) && (negb (n4 =? 24) || (n100 =? 3)) in
    let month := Z.shiftr (n + 50) 5 in
    let preceding := getitem _DAYS_BEFORE_MONTH month + b2z ((2 <? month) && leapyear) in
    let '(month, preceding) :=
      if n <? preceding
      then (month - 1,
            preceding - (getitem _DAYS_IN_MONTH (month - 1)
                         + b2z ((month - 1 =? 2) && leapyear)))
      else (month, preceding) in
    (year, month, n - preceding + 1).

(** [_check_date_fields]: the fields a [date] object can hold. *)
Definition check_date_fields (y m d : Z) : bool :=
  (MINYEAR <=? y) && (y <=? MAXYEAR) &&
  (1 <=? m) && (m <=? 12) &&
  (1 <=? d) && (d <=? _days_in_month y m).

Definition valid (x : date) : Prop :=
  check_date_fields (year x) (month x) (day x) = true.

(** [date(year, month, day)] *)
Definition new_date {U} (y m d : Z) : result (exn U) date :=
  if check_date_fields y m d then Ok (mkdate y m d) else Raise ValueError.

Definition toordinal (x : date) : Z := _ymd2ord (year x) (month x) (day x).

Definition fromordinal (n : Z) : date :=
  let '(y, m, d) := _ord2ymd n in mkdate y m d.

(** Monday is 0, Sunday is 6. *)
Definition weekday (x : date) : Z := (toordinal x + 6) mod 7.

(** Comparison is that of the tuples [(year, month, day)]. *)
Definition eqb (x y : date) : bool :=
  (year x =? year y) && (month x =? month y) && (day x =? day y).

Definition ltb (x y : date) : bool :=
  (year x <? year y)
  || ((year x =? year y)
      && ((month x <? month y)
          || ((month x =? month y) && (day x <? day y)))).

Definition gtb (x y : date) : bool := ltb y x.

(** [x + timedelta(days=n)].  Building a [timedelta] of more than 999999999
    days and leaving the range of ordinals both raise [OverflowError]; the
    first implies the second. *)
Definition add_days {U} (x : date) (n : Z) : result (exn U) date :=
  let o := toordinal x + n in
  if (0 <? o) && (o <=? _MAXORDINAL) then Ok (fromordinal o)
  else Raise OverflowError.

(** [x - timedelta(days=n)] is [x + timedelta(days=-n)]. *)
Definition sub_days {U} (x : date) (n : Z) : result (exn U) date :=
  add_days x (- n).

(** *** [isoformat]: ["%04d-%02d-%02d" % (year, month, day)] *)

Definition digit_char (d : Z) : ascii := ascii_of_N (Z.to_N (48 + d)).

Fixpoint decimal (fuel : nat) (n : Z) : string :=
  match fuel with
  | O => EmptyString
  | S f =>
      if n <? 10 then String (digit_char n) EmptyString
      else (decimal f (n / 10) ++ String (digit_char (n mod 10)) EmptyString)%string
  end.

Fixpoint zeros (k : nat) : string :=
  match k with
  | O => EmptyString
  | S k => String "0" (zeros k)
  end.

(** ["%0{width}d" % n] for [0 <= n]. *)
Definition format_0d (width : nat) (n : Z) : string :=
  let s := decimal (S (Z.to_nat (Z.log2 n))) n in
  (zeros (width - String.length s) ++ s)%string.

Definition isoformat (x : date) : string :=
  (format_0d 4 (year x) ++ "-" ++ format_0d 2 (month x) ++ "-"
   ++ format_0d 2 (day x))%string.

(** *** [strptime] with the format ['%Y-%m-%d']

    [_strptime] turns the format into the regular expression
    [(?P<Y>\d\d\d\d)-(?P<m>1[0-2]|0[1-9]|[1-9])-(?P<d>3[0-1]|[1-2]\d|0[1-9]|[1-9]| [1-9])]
    and matches it at the start of the input.  A matcher returns, in the
    order in which a backtracking engine tries them, the ways to split the
    input into a matched prefix and a rest. *)

Definition matcher : Type := string -> list (string * string).

Definition re_class (p : ascii -> bool) : matcher :=
  fun s =>
    match s with
    | String c r => if p c then [(String c EmptyString, r)] else []
    | EmptyString => []
    end.

Definition re_seq (p q : matcher) : matcher :=
  fun s =>
    flat_map (fun '(a, r) => map (fun '(b, r') => ((a ++ b)%string, r')) (q r))
             (p s).

Definition re_alt (p q : matcher) : matcher := fun s => (p s ++ q s)%list.

Definition in_range (lo hi : ascii) (c : ascii) : bool :=
  ((N_of_ascii lo <=? N_of_ascii c) && (N_of_ascii c <=? N_of_ascii hi))%N.

Definition re_chr (a : ascii) : matcher := re_class (Ascii.eqb a).
Definition re_rng (lo hi : ascii) : matcher := re_class (in_range lo hi).
Definition re_digit : matcher := re_rng "0" "9".

Definition re_Y : matcher :=
  re_seq re_digit (re_seq re_digit (re_seq re_digit re_digit)).

Definition re_m : matcher :=
  re_alt (re_seq (re_chr "1") (re_rng "0" "2"))
    (re_alt (re_seq (re_chr "0") (re_rng "1" "9"))
       (re_rng "1" "9")).

Definition re_d : matcher :=
  re_alt (re_seq (re_chr "3") (re_rng "0" "1"))
    (re_alt (re_seq (re_rng "1" "2") re_digit)
       (re_alt (re_seq (re_chr "0") (re_rng "1" "9"))
          (re_alt (re_rng "1" "9")
             (re_seq (re_chr " ") (re_rng "1" "9"))))).

(** The groups [Y], [m], [d] of the first match and the unmatched rest. *)
Definition format_regex_match (s : string)
  : option (string * string * string * string) :=
  hd_error
    (flat_map (fun '(Y, r) =>
       flat_map (fun '(_, r) =>
         flat_map (fun '(m, r) =>
           flat_map (fun '(_, r) =>
             map (fun '(d, r) => (Y, m, d, r)) (re_d r))
             (re_chr "-" r))
           (re_m r))
         (re_chr "-" r))
       (re_Y s)).

Definition digit_value (c : ascii) : Z := Z.of_N (N_of_ascii c) - 48.

(** [int(s)] for a string of digits after optional blanks. *)
Fixpoint int_digits (acc : Z) (s : string) : Z :=
  match s with
  | EmptyString => acc
  | String c r => int_digits (acc * 10 + digit_value c) r
  end.

Fixpoint lstrip (s : string) : string :=
  match s with
  | String " " r => lstrip r
  | _ => s
  end.

Definition int (s : string) : Z := int_digits 0 (lstrip s).

(** [datetime.strptime(data_string, '%Y-%m-%d').date()] *)
Definition strptime {U} (data_string : string) : result (exn U) date :=
  match format_regex_match data_string with
  | None => Raise ValueError
  | Some (Y, m, d, rest) =>
      if negb (String.eqb rest "") then Raise ValueError
      else new_date (int Y) (int m) (int d)
  end.

(** [strftime('%A')] *)
Definition weekday_name (x : date) : string :=
  nth (Z.to_nat (weekday x))
      ["Monday"; "Tuesday"; "Wednesday"; "Thursday"; "Friday"; "Saturday";
       "Sunday"]%string ""%string.

End datetime.

(** The rows of a [DataFrame] matter here only through the dates of its
    index. *)
Record DataFrame : Type := { index : list datetime.date }.

(** [df.index[0].date()] and [df.index[-1].date()] *)
Definition index_first {U} (df : DataFrame) : result (exn U) datetime.date :=
  match index df with
  | [] => Raise IndexError
  | x :: _ => Ok x
  end.

Definition index_last {U} (df : DataFrame) : result (exn U) datetime.date :=
  match rev (index df) with
  | [] => Raise IndexError
  | x :: _ => Ok x
  end.

(** What the code reads from outside its arguments: the system clock behind
    [dt.datetime.now()]. *)
Record world : Type := { now : datetime.date }.

(** ** [utils/utils.py] *)
Module utils.
Import datetime.

(** The exception carries what its message shows: the last date of the
    data, the day after it and the prediction date. *)
Inductive error : Type :=
| InvalidPredictionDateError_ (pred_date df_last_date till : date).

Definition E : Type := exn error.

Definition InvalidPredictionDateError {A} (pred_date df_last_date : date)
  : result E A :=
  till <- add_days df_last_date 1 ;;
  Raise (UserError (InvalidPredictionDateError_ pred_date df_last_date till)).

Definition get_date_from_string (date : string) : result E datetime.date :=
  strptime date.

Definition get_correct_pred_date (pred_date df_last_date : date)
  : result E date :=
  if weekday df_last_date =? 4 then
    d1 <- add_days df_last_date 1 ;;
    if eqb pred_date d1 then add_days pred_date 2
    else
      d2 <- add_days df_last_date 2 ;;
      if eqb pred_date d2 then add_days pred_date 1
      else
        d3 <- add_days df_last_date 3 ;;
        if gtb pred_date d3
        then InvalidPredictionDateError pred_date df_last_date
        else Ok pred_date
  else
    p <- sub_days pred_date 1 ;;
    if ltb df_last_date p
    then InvalidPredictionDateError pred_date df_last_date
    else Ok pred_date.

Definition get_prediction_date (w : world) (df : DataFrame)
    (date : option string) : result E datetime.date :=
  pred_date <- match date with
               | None => Ok (now w)
               | Some date => get_date_from_string date
               end ;;
  df_last_date <- index_last df ;;
  get_correct_pred_date pred_date df_last_date.

End utils.

(** ** [model/keras_models/utils.py] *)
Module keras_utils.
Import datetime.

(** The exceptions carry what their messages show; [limit] is
    [df_date + timedelta(days=seq_len)] when [lower] and
    [df_date + timedelta(days=1)] otherwise. *)
Inductive error : Type :=
| InvalidPredictionDateError_ (pred_date df_date : date) (seq_len : Z)
    (lower : bool) (limit : date)
| InvalidDateError_ (date : string).

Definition E : Type := exn error.

Definition InvalidPredictionDateError {A} (pred_date df_date : date)
    (seq_len : Z) (lower : bool) : result E A :=
  limit <- add_days df_date (if lower then seq_len else 1) ;;
  Raise (UserError
           (InvalidPredictionDateError_ pred_date df_date seq_len lower limit)).

Definition InvalidDateError {A} (date : string) : result E A :=
  Raise (UserError (InvalidDateError_ date)).

Definition get_date_from_string (date : string) : result E datetime.date :=
  match strptime (U := error) date with
  | Ok d => Ok d
  | Raise ValueError => InvalidDateError date
  | Raise e => Raise e
  end.

(** Lines 46-50: "If date is Sat or Sun make it Mon". *)
Definition weekend_snap (pred_date : date) : result E date :=
  if weekday pred_date =? 5 then add_days pred_date 2
  else if weekday pred_date =? 6 then add_days pred_date 1
  else Ok pred_date.

Definition get_correct_pred_date (pred_date df_first_date df_last_date : date)
    (seq_len : Z) : result E date :=
  earliest <- add_days df_first_date seq_len ;;
  if gtb earliest pred_date
  then InvalidPredictionDateError pred_date df_first_date seq_len true
  else
    _ <- (if weekday df_last_date =? 4 then
            d3 <- add_days df_last_date 3 ;;
            if gtb pred_date d3
            then InvalidPredictionDateError pred_date df_last_date seq_len false
            else Ok tt
          else
            p <- sub_days pred_date 1 ;;
            if ltb df_last_date p
            then InvalidPredictionDateError pred_date df_last_date seq_len false
            else Ok tt) ;;
    weekend_snap pred_date.

Definition get_prediction_date (w : world) (df : DataFrame) (seq_len : Z)
    (date : option string) : result E datetime.date :=
  pred_date <- match date with
               | None => Ok (now w)
               | Some date => get_date_from_string date
               end ;;
  df_first_date <- index_first df ;;
  df_last_date <- index_last df ;;
  get_correct_pred_date pred_date df_first_date df_last_date seq_len.

End keras_utils.

(** ** [os.path.join] of [posixpath], for two arguments *)
Module posixpath.

Definition sep : ascii := "/".

(** [b.startswith(sep)] *)
Definition startswith_sep (b : string) : bool :=
  match b with
  | String c _ => Ascii.eqb c sep
  | EmptyString => false
  end.

(** [path.endswith(sep)] *)
Fixpoint endswith_sep (path : string) : bool :=
  match path with
  | EmptyString => false
  | String c EmptyString => Ascii.eqb c sep
  | String _ r => endswith_sep r
  end.

(** [sep in s] *)
Fixpoint contains_sep (s : string) : bool :=
  match s with
  | EmptyString => false
  | String c r => Ascii.eqb c sep || contains_sep r
  end.

(** [join(a, b)]: an absolute [b] replaces [a]; otherwise [b] is appended,
    after a separator unless [a] is empty or ends with one. *)
Definition join (a b : string) : string :=
  if startswith_sep b then b
  else if (String.eqb a "") || endswith_sep a then (a ++ b)%string
  else (a ++ String sep b)%string.

End posixpath.

(** ** [KerasModel.predict] in [model/keras_model/keras_model.py]

    [predict] is modelled for any method [self._predict], whose body runs
    the network and is not modelled; the lines printed are kept.  [ut] is
    [utils/utils.py], as the module imports it.  ([_predict] itself calls
    [ut.get_prediction_date(df, self.seq_len, date)], with one argument
    more than the function of [utils/utils.py] takes and as many as the one
    of [model/keras_models/utils.py] takes.) *)
Module keras_model.
Import datetime.

Definition notice (date pred_date : datetime.date) : string :=
  ("Date given (" ++ isoformat date ++ ") is a " ++ weekday_name date
   ++ ". So, actual prediction is for: " ++ isoformat pred_date
   ++ " (Monday)")%string.

(** What [predict] can raise: an exception of [self._predict], or one of
    [ut.get_date_from_string]. *)
Inductive raised (P : Type) : Type :=
| in__predict (e : P)
| in_ut (e : utils.E).
Arguments in__predict {P} e.
Arguments in_ut {P} e.

(** [predict] returns [(y, pred_date)], here paired with the lines it
    prints. *)
Definition predict {Y P : Type}
    (_predict : option string -> result P (Y * datetime.date))
    (date : option string)
  : result (raised P) (Y * datetime.date * list string) :=
  match _predict date with
  | Raise e => Raise (in__predict e)
  | Ok (y, pred_date) =>
      match date with
      | Some s =>
          match utils.get_date_from_string s with
          | Raise e => Raise (in_ut e)
          | Ok date =>
              if negb (eqb pred_date date)
              then Ok (y, pred_date, [notice date pred_date])
              else Ok (y, pred_date, [])
          end
      | None => Ok (y, pred_date, [])
      end
  end.

(** [get_checkpoint_path]: [dirname] is the directory of the module's file
    ([os.path.dirname(os.path.realpath(__file__))]) and
    [SAVED_MODELS_BASE_PATH] the constant of [constants.py]. *)
Section checkpoint.
Variable dirname : string.
Variable SAVED_MODELS_BASE_PATH : string.

Definition get_checkpoint_path (ticker : string) : string :=
  let base_path := posixpath.join dirname SAVED_MODELS_BASE_PATH in
  let checkpoint_base_path := posixpath.join base_path ticker in
  let checkpoint_path := posixpath.join checkpoint_base_path "cp.ckpt" in
  checkpoint_path.

End checkpoint.

End keras_model.

(** ** The strings the specification calls valid

    Follows the specification's words ("a string in [YYYY-MM-DD] format",
    matched exactly): four digits, a dash, two digits, a dash, two digits,
    naming a date of the calendar.  It is what [get_date_from_string] is
    compared with, not part of the program. *)
Definition valid_iso_string (s : string) : bool :=
  match s with
  | String y1 (String y2 (String y3 (String y4 (String s1
      (String m1 (String m2 (String s2 (String d1 (String d2 EmptyString))))))))) =>
      forallb (datetime.in_range "0" "9") [y1; y2; y3; y4; m1; m2; d1; d2]
      && Ascii.eqb s1 "-" && Ascii.eqb s2 "-"
      && datetime.check_date_fields
           (datetime.int (String y1 (String y2 (String y3 (String y4 "")))))
           (datetime.int (String m1 (String m2 "")))
           (datetime.int (String d1 (String d2 "")))
  | _ => false
  end.

(** * Properties *)

Import datetime.

(** ** The calendar: ordinals, validity and order *)

Lemma is_leap_cases y :
  (_is_leap y = true /\ (y mod 4 = 0 /\ (y mod 100 <> 0 \/ y mod 400 = 0)))
  \/ (_is_leap y = false /\ (y mod 4 <> 0 \/ (y mod 100 = 0 /\ y mod 400 <> 0))).
Proof.
  unfold _is_leap.
  destruct (Z.eqb_spec (y mod 4) 0), (Z.eqb_spec (y mod 100) 0),
    (Z.eqb_spec (y mod 400) 0); simpl; intuition lia.
Qed.

Lemma days_before_year_succ y :
  _days_before_year (y + 1) = _days_before_year y + 365 + b2z (_is_leap y).
Proof.
  unfold _days_before_year.
  destruct (is_leap_cases y) as [[-> H] | [-> H]]; simpl b2z;
    replace (y + 1 - 1) with y by lia.
  all: Z.div_mod_to_equations; lia.
Qed.

Lemma days_before_year_mono y1 y2 :
  y1 < y2 -> _days_before_year y1 + 365 + b2z (_is_leap y1) <= _days_before_year y2.
Proof.
  intros H. rewrite <- days_before_year_succ.
  unfold _days_before_year. Z.div_mod_to_equations. lia.
Qed.

Ltac month_cases m :=
  let H := fresh in
  assert (H : m = 1 \/ m = 2 \/ m = 3 \/ m = 4 \/ m = 5 \/ m = 6 \/ m = 7
              \/ m = 8 \/ m = 9 \/ m = 10 \/ m = 11 \/ m = 12) by lia;
  repeat (destruct H as [H | H]; [subst m | ]); [ .. | subst m].

Ltac eval_tables :=
  repeat match goal with
    | |- context [getitem ?l ?i] =>
        let v := eval vm_compute in (getitem l i) in
        change (getitem l i) with v
    end;
  cbn [b2z andb orb negb Z.eqb Z.ltb Z.compare Pos.compare Pos.compare_cont Pos.eqb].

Lemma valid_fields x :
  valid x <->
  1 <= year x <= 9999 /\ 1 <= month x <= 12 /\
  1 <= day x <= _days_in_month (year x) (month x).
Proof.
  unfold valid, check_date_fields, MINYEAR, MAXYEAR.
  rewrite !andb_true_iff, !Z.leb_le. tauto.
Qed.

Lemma days_before_month_succ y m :
  1 <= m <= 11 ->
  _days_before_month y (m + 1) = _days_before_month y m + _days_in_month y m.
Proof.
  intros Hm. unfold _days_before_month, _days_in_month.
  month_cases m; try lia; destruct (_is_leap y); reflexivity.
Qed.

Lemma days_in_month_pos y m : 1 <= m <= 12 -> 28 <= _days_in_month y m <= 31.
Proof.
  intros Hm. unfold _days_in_month.
  month_cases m; destruct (_is_leap y); eval_tables; lia.
Qed.

Lemma days_before_month_mono y m1 m2 :
  1 <= m1 -> m1 < m2 -> m2 <= 12 ->
  _days_before_month y m1 + _days_in_month y m1 <= _days_before_month y m2.
Proof.
  intros H1 H2 H3.
  assert (Hstep : forall k, 0 <= k -> m1 + 1 + k <= 12 ->
            _days_before_month y m1 + _days_in_month y m1
            <= _days_before_month y (m1 + 1 + k)).
  { intros k Hk. pattern k. apply natlike_ind; [ | | exact Hk].
    - intros Hle. rewrite Z.add_0_r, days_before_month_succ by lia. lia.
    - intros j Hj IH Hle.
      replace (m1 + 1 + Z.succ j) with (m1 + 1 + j + 1) by lia.
      rewrite days_before_month_succ by lia.
      pose proof (days_in_month_pos y (m1 + 1 + j) ltac:(lia)). lia. }
  specialize (Hstep (m2 - m1 - 1) ltac:(lia) ltac:(lia)).
  replace (m1 + 1 + (m2 - m1 - 1)) with m2 in Hstep by lia. exact Hstep.
Qed.

Lemma days_before_month_bounds y m :
  1 <= m <= 12 ->
  0 <= _days_before_month y m /\
  _days_before_month y m + _days_in_month y m <= 365 + b2z (_is_leap y).
Proof.
  intros Hm. unfold _days_before_month, _days_in_month.
  month_cases m; destruct (_is_leap y); eval_tables; lia.
Qed.

Lemma toordinal_bounds x : valid x -> 1 <= toordinal x <= _MAXORDINAL.
Proof.
  rewrite valid_fields. intros (Hy & Hm & Hd).
  unfold toordinal, _ymd2ord, _MAXORDINAL.
  pose proof (days_before_month_bounds (year x) (month x) Hm) as [Hb1 Hb2].
  split.
  - assert (0 <= _days_before_year (year x)).
    { unfold _days_before_year. Z.div_mod_to_equations. lia. }
    lia.
  - destruct (Z.eq_dec (year x) 9999) as [E | Hne].
    + rewrite E in *. change (_is_leap 9999) with false in Hb2.
      change (_days_before_year 9999) with 3651694. cbn [b2z] in Hb2. lia.
    + pose proof (days_before_year_mono (year x) 9999 ltac:(lia)) as Hmono.
      change (_days_before_year 9999) with 3651694 in Hmono.
      destruct (_is_leap (year x)); cbn [b2z] in *; lia.
Qed.

Lemma ltb_toordinal x y :
  valid x -> valid y -> (ltb x y = true <-> toordinal x < toordinal y).
Proof.
  rewrite !valid_fields. intros (Hy1 & Hm1 & Hd1) (Hy2 & Hm2 & Hd2).
  unfold ltb, toordinal, _ymd2ord.
  rewrite orb_true_iff, andb_true_iff, orb_true_iff, andb_true_iff,
    !Z.ltb_lt, !Z.eqb_eq.
  pose proof (days_before_month_bounds (year x) _ Hm1) as [Ha1 Ha2].
  pose proof (days_before_month_bounds (year y) _ Hm2) as [Hb1 Hb2].
  destruct (Z.lt_total (year x) (year y)) as [Hlt | [Heq | Hgt]].
  - pose proof (days_before_year_mono _ _ Hlt). lia.
  - rewrite Heq in *.
    destruct (Z.lt_total (month x) (month y)) as [Mlt | [Meq | Mgt]].
    + pose proof (days_before_month_mono (year y) _ _ (proj1 Hm1) Mlt (proj2 Hm2)).
      lia.
    + rewrite Meq in *. lia.
    + pose proof (days_before_month_mono (year y) _ _ (proj1 Hm2) Mgt (proj2 Hm1)).
      lia.
  - pose proof (days_before_year_mono _ _ Hgt). lia.
Qed.

Lemma eqb_eq x y : eqb x y = true <-> x = y.
Proof.
  unfold eqb. rewrite !andb_true_iff, !Z.eqb_eq.
  destruct x, y; cbn. split.
  - intros [[-> ->] ->]. reflexivity.
  - intros [= -> -> ->]. auto.
Qed.

Lemma toordinal_inj x y :
  valid x -> valid y -> toordinal x = toordinal y -> x = y.
Proof.
  intros Hx Hy Heq.
  pose proof (ltb_toordinal x y Hx Hy) as H1.
  pose proof (ltb_toordinal y x Hy Hx) as H2.
  assert (L1 : ltb x y = false) by (destruct (ltb x y); intuition lia).
  assert (L2 : ltb y x = false) by (destruct (ltb y x); intuition lia).
  unfold ltb in L1, L2.
  rewrite !orb_false_iff, !andb_false_iff, !orb_false_iff, !andb_false_iff,
    !Z.ltb_ge, !Z.eqb_neq in L1, L2.
  destruct x as [a b c], y as [a' b' c']; cbn in *.
  assert (a = a') by lia. subst a'.
  assert (b = b') by lia. subst b'.
  assert (c = c') by lia. subst c'. reflexivity.
Qed.

Lemma month_day_spec leapyear n :
  0 <= n <= 364 ->
  let month := Z.shiftr (n + 50) 5 in
  let preceding :=
    getitem _DAYS_BEFORE_MONTH month + b2z ((2 <? month) && leapyear) in
  let '(month, preceding) :=
    if n <? preceding
    then (month - 1,
          preceding - (getitem _DAYS_IN_MONTH (month - 1)
                       + b2z ((month - 1 =? 2) && leapyear)))
    else (month, preceding) in
  1 <= month <= 12 /\
  1 <= n - preceding + 1
    <= getitem _DAYS_IN_MONTH month + b2z ((month =? 2) && leapyear) /\
  getitem _DAYS_BEFORE_MONTH month + b2z ((2 <? month) && leapyear)
    + (n - preceding + 1) = n + 1.
Proof.
  intros Hn.
  assert (Hall :
    forallb (fun leapyear => forallb (fun k =>
      let n := Z.of_nat k in
      let month := Z.shiftr (n + 50) 5 in
      let preceding :=
        getitem _DAYS_BEFORE_MONTH month + b2z ((2 <? month) && leapyear) in
      let '(month, preceding) :=
        if n <? preceding
        then (month - 1,
              preceding - (getitem _DAYS_IN_MONTH (month - 1)
                           + b2z ((month - 1 =? 2) && leapyear)))
        else (month, preceding) in
      (1 <=? month) && (month <=? 12) && (1 <=? n - preceding + 1)
      && (n - preceding + 1
          <=? getitem _DAYS_IN_MONTH month + b2z ((month =? 2) && leapyear))
      && (getitem _DAYS_BEFORE_MONTH month + b2z ((2 <? month) && leapyear)
          + (n - preceding + 1) =? n + 1)) (seq 0 365)) [true; false] = true)
    by (vm_compute; reflexivity).
  rewrite forallb_forall in Hall.
  assert (Hl : In leapyear [true; false]) by (destruct leapyear; simpl; auto).
  specialize (Hall _ Hl). rewrite forallb_forall in Hall.
  specialize (Hall (Z.to_nat n)).
  rewrite Z2Nat.id in Hall by lia.
  assert (Hin : In (Z.to_nat n) (seq 0 365)) by (apply in_seq; lia).
  specialize (Hall Hin). cbv zeta in Hall |- *.
  destruct (if n <? _ then _ else _) as [month preceding].
  rewrite !andb_true_iff, !Z.leb_le, Z.eqb_eq in Hall. lia.
Qed.

Lemma days_in_month_alt y m :
  _days_in_month y m
  = getitem _DAYS_IN_MONTH m + b2z ((m =? 2) && _is_leap y).
Proof.
  unfold _days_in_month.
  destruct (Z.eqb_spec m 2) as [-> | Hne]; destruct (_is_leap y); cbn [andb b2z];
    try reflexivity; lia.
Qed.

Lemma ord2ymd_spec n :
  1 <= n <= _MAXORDINAL ->
  let '(y, m, d) := _ord2ymd n in
  check_date_fields y m d = true /\ _ymd2ord y m d = n.
Proof.
  unfold _MAXORDINAL. intros Hn.
  unfold _ord2ymd, _DI400Y, _DI100Y, _DI4Y. cbv zeta.
  pose proof (Z.div_mod (n - 1) 146097 ltac:(lia)) as E400.
  pose proof (Z.mod_pos_bound (n - 1) 146097 ltac:(lia)) as B400.
  set (q400 := (n - 1) / 146097) in *. set (r400 := (n - 1) mod 146097) in *.
  pose proof (Z.div_mod r400 36524 ltac:(lia)) as E100.
  pose proof (Z.mod_pos_bound r400 36524 ltac:(lia)) as B100.
  set (q100 := r400 / 36524) in *. set (r100 := r400 mod 36524) in *.
  pose proof (Z.div_mod r100 1461 ltac:(lia)) as E4.
  pose proof (Z.mod_pos_bound r100 1461 ltac:(lia)) as B4.
  set (q4 := r100 / 1461) in *. set (r4 := r100 mod 1461) in *.
  pose proof (Z.div_mod r4 365 ltac:(lia)) as E1.
  pose proof (Z.mod_pos_bound r4 365 ltac:(lia)) as B1.
  set (q1 := r4 / 365) in *. set (r1 := r4 mod 365) in *.
  clearbody q400 r400 q100 r100 q4 r4 q1 r1.
  assert (Hq400 : 0 <= q400 <= 24) by lia.
  assert (Hq100 : 0 <= q100 <= 4) by lia.
  assert (Hq4 : 0 <= q4 <= 24) by lia.
  assert (Hq1 : 0 <= q1 <= 4) by lia.
  destruct ((q1 =? 4) || (q100 =? 4)) eqn:Hedge.
  - (* the last day of a leap year *)
    set (Y := q400 * 400 + 1 + (q100 * 100 + q4 * 4 + q1) - 1).
    assert (HY : Y = 400 * q400 + 100 * q100 + 4 * q4 + q1) by (unfold Y; lia).
    clearbody Y.
    rewrite orb_true_iff, !Z.eqb_eq in Hedge.
    assert (Hleap : _is_leap Y = true).
    { destruct (is_leap_cases Y) as [[H _] | [_ H]]; [exact H | exfalso].
      Z.div_mod_to_equations. lia. }
    unfold check_date_fields, _ymd2ord, _days_before_month, _days_in_month,
      MINYEAR, MAXYEAR.
    rewrite Hleap. eval_tables.
    assert (Hdby : _days_before_year Y + 366 = n).
    { unfold _days_before_year. cbv zeta. Z.div_mod_to_equations. lia. }
    rewrite !andb_true_iff, !Z.leb_le. lia.
  - rewrite orb_false_iff, !Z.eqb_neq in Hedge.
    set (Y := q400 * 400 + 1 + (q100 * 100 + q4 * 4 + q1)).
    assert (HY : Y = 400 * q400 + 100 * q100 + 4 * q4 + q1 + 1) by (unfold Y; lia).
    clearbody Y.
    set (leapyear := (q1 =? 3) && (negb (q4 =? 24) || (q100 =? 3))).
    assert (Hleap : _is_leap Y = leapyear).
    { unfold leapyear.
      destruct (Z.eqb_spec q1 3), (Z.eqb_spec q4 24), (Z.eqb_spec q100 3);
        cbn [andb orb negb];
        destruct (is_leap_cases Y) as [[H HH] | [H HH]]; rewrite H;
        try reflexivity; exfalso; Z.div_mod_to_equations; lia. }
    assert (Hdby : _days_before_year Y = n - 1 - r1).
    { unfold _days_before_year. cbv zeta. Z.div_mod_to_equations. lia. }
    pose proof (month_day_spec leapyear r1 ltac:(lia)) as Hmd.
    cbv zeta in Hmd.
    destruct (if r1 <? _ then _ else _) as [month preceding].
    destruct Hmd as (Hm & Hd & Hsum).
    unfold check_date_fields, _ymd2ord, _days_before_month, MINYEAR, MAXYEAR.
    rewrite days_in_month_alt, Hleap, Hdby.
    rewrite !andb_true_iff, !Z.leb_le. lia.
Qed.

(** ** Date arithmetic in ordinals *)

Lemma fromordinal_valid n : 1 <= n <= _MAXORDINAL -> valid (fromordinal n).
Proof.
  intros Hn. pose proof (ord2ymd_spec n Hn) as H.
  unfold fromordinal, valid. destruct (_ord2ymd n) as [[y m] d]. apply H.
Qed.

Lemma toordinal_fromordinal n :
  1 <= n <= _MAXORDINAL -> toordinal (fromordinal n) = n.
Proof.
  intros Hn. pose proof (ord2ymd_spec n Hn) as H.
  unfold fromordinal, toordinal. destruct (_ord2ymd n) as [[y m] d]. apply H.
Qed.

Lemma fromordinal_toordinal x : valid x -> fromordinal (toordinal x) = x.
Proof.
  intros Hx. pose proof (toordinal_bounds x Hx) as Hb.
  apply toordinal_inj; auto using fromordinal_valid, toordinal_fromordinal.
Qed.

Lemma ltb_ord x y :
  valid x -> valid y -> ltb x y = (toordinal x <? toordinal y).
Proof.
  intros Hx Hy. pose proof (ltb_toordinal x y Hx Hy) as H.
  destruct (Z.ltb_spec (toordinal x) (toordinal y)), (ltb x y); intuition lia.
Qed.

Lemma gtb_ord x y :
  valid x -> valid y -> gtb x y = (toordinal y <? toordinal x).
Proof. intros Hx Hy. unfold gtb. apply ltb_ord; assumption. Qed.

Lemma eqb_ord x y :
  valid x -> valid y -> eqb x y = (toordinal x =? toordinal y).
Proof.
  intros Hx Hy. destruct (Z.eqb_spec (toordinal x) (toordinal y)) as [E | N].
  - apply eqb_eq, toordinal_inj; assumption.
  - destruct (eqb x y) eqn:Heq; [ | reflexivity].
    apply eqb_eq in Heq. subst y. contradiction.
Qed.

Lemma add_days_cases {U} x k :
  (1 <= toordinal x + k <= _MAXORDINAL /\
   add_days (U := U) x k = Ok (fromordinal (toordinal x + k)))
  \/ (~ 1 <= toordinal x + k <= _MAXORDINAL /\
      add_days (U := U) x k = Raise OverflowError).
Proof.
  unfold add_days. cbv zeta.
  destruct (Z.ltb_spec 0 (toordinal x + k)),
    (Z.leb_spec (toordinal x + k) _MAXORDINAL); cbn [andb];
    [left | right | right | right]; split; auto; lia.
Qed.

Lemma add_days_Ok {U} x k d :
  add_days (U := U) x k = Ok d ->
  valid d /\ toordinal d = toordinal x + k.
Proof.
  destruct (add_days_cases (U := U) x k) as [[Hr ->] | [Hr ->]]; [ | discriminate].
  intros [= <-]. auto using fromordinal_valid, toordinal_fromordinal.
Qed.

Lemma weekday_range x : 0 <= weekday x <= 6.
Proof. unfold weekday. pose proof (Z.mod_pos_bound (toordinal x + 6) 7). lia. Qed.

(** No Saturday or Sunday is among the last two days of the calendar. *)
Lemma weekend_snap_spec pred_date :
  valid pred_date ->
  exists r,
    keras_utils.weekend_snap pred_date = Ok r /\ valid r /\
    toordinal r
    = toordinal pred_date
      + (if weekday pred_date =? 5 then 2
         else if weekday pred_date =? 6 then 1 else 0).
Proof.
  intros Hv. pose proof (toordinal_bounds _ Hv) as Hb. unfold _MAXORDINAL in Hb.
  unfold keras_utils.weekend_snap.
  destruct (Z.eqb_spec (weekday pred_date) 5) as [H5 | H5];
    [ | destruct (Z.eqb_spec (weekday pred_date) 6) as [H6 | H6]].
  - destruct (add_days_cases (U := keras_utils.error) pred_date 2)
      as [[Hr E] | [Hr E]].
    + rewrite E. eexists; split; [reflexivity | ].
      auto using fromordinal_valid, toordinal_fromordinal.
    + exfalso. unfold weekday, _MAXORDINAL in *.
      Z.div_mod_to_equations. lia.
  - destruct (add_days_cases (U := keras_utils.error) pred_date 1)
      as [[Hr E] | [Hr E]].
    + rewrite E. eexists; split; [reflexivity | ].
      auto using fromordinal_valid, toordinal_fromordinal.
    + exfalso. unfold weekday, _MAXORDINAL in *.
      Z.div_mod_to_equations. lia.
  - exists pred_date. repeat split; auto. lia.
Qed.

(** ** The two resolvers, case by case *)

Ltac ord_bools :=
  repeat match goal with
    | Hx : valid ?x, Hy : valid ?y |- context [ltb ?x ?y] =>
        rewrite (ltb_ord x y Hx Hy)
    | Hx : valid ?x, Hy : valid ?y |- context [gtb ?x ?y] =>
        rewrite (gtb_ord x y Hx Hy)
    | Hx : valid ?x, Hy : valid ?y |- context [eqb ?x ?y] =>
        rewrite (eqb_ord x y Hx Hy)
    end.

(** Splits on whether [x + timedelta(days=k)] is in range and records the
    validity and the ordinal of the sum. *)
Ltac split_add U x k :=
  let Hr := fresh "Hr" in
  let E := fresh "E" in
  let Hv := fresh "Hv" in
  let Ho := fresh "Ho" in
  destruct (add_days_cases (U := U) x k) as [[Hr E] | [Hr E]];
  [ pose proof (fromordinal_valid _ Hr) as Hv;
    pose proof (toordinal_fromordinal _ Hr) as Ho
  | ];
  rewrite ?E; cbn [bind].

Lemma maxordinal_friday x :
  valid x -> weekday x <> 4 -> toordinal x + 1 <= _MAXORDINAL.
Proof.
  intros Hv Hw. pose proof (toordinal_bounds x Hv) as Hb.
  unfold weekday, _MAXORDINAL in *. Z.div_mod_to_equations. lia.
Qed.

Lemma keras_get_correct_pred_date_cases pred_date df_first_date df_last_date seq_len :
  valid pred_date -> valid df_first_date -> valid df_last_date ->
  let r := keras_utils.get_correct_pred_date pred_date df_first_date
             df_last_date seq_len in
  let TooLate :=
    Raise (UserError (keras_utils.InvalidPredictionDateError_ pred_date
             df_last_date seq_len false
             (fromordinal (toordinal df_last_date + 1)))) in
  (~ 1 <= toordinal df_first_date + seq_len <= _MAXORDINAL
   /\ r = Raise OverflowError)
  \/ (1 <= toordinal df_first_date + seq_len <= _MAXORDINAL
      /\ toordinal pred_date < toordinal df_first_date + seq_len
      /\ r = Raise (UserError (keras_utils.InvalidPredictionDateError_
                 pred_date df_first_date seq_len true
                 (fromordinal (toordinal df_first_date + seq_len)))))
  \/ (1 <= toordinal df_first_date + seq_len <= toordinal pred_date
      /\ ((weekday df_last_date = 4
           /\ _MAXORDINAL < toordinal df_last_date + 3
           /\ r = Raise OverflowError)
          \/ (weekday df_last_date = 4
              /\ toordinal df_last_date + 3 < toordinal pred_date
              /\ r = TooLate)
          \/ (weekday df_last_date <> 4
              /\ toordinal pred_date = 1
              /\ r = Raise OverflowError)
          \/ (weekday df_last_date <> 4
              /\ toordinal df_last_date + 1 < toordinal pred_date
              /\ r = TooLate)
          \/ ((weekday df_last_date = 4 ->
               toordinal pred_date <= toordinal df_last_date + 3 <= _MAXORDINAL)
              /\ (weekday df_last_date <> 4 ->
                  1 < toordinal pred_date <= toordinal df_last_date + 1)
              /\ r = keras_utils.weekend_snap pred_date))).
Proof.
  intros Hp Hf Hl. cbv zeta.
  pose proof (toordinal_bounds _ Hp) as Bp.
  pose proof (toordinal_bounds _ Hf) as Bf.
  pose proof (toordinal_bounds _ Hl) as Bl.
  unfold keras_utils.get_correct_pred_date.
  split_add keras_utils.error df_first_date seq_len; [ | left; auto].
  ord_bools. right. rewrite Ho.
  destruct (Z.ltb_spec (toordinal pred_date) (toordinal df_first_date + seq_len))
    as [Hlow | Hlow].
  { left. unfold keras_utils.InvalidPredictionDateError. rewrite E. cbn [bind].
    auto. }
  right. split; [lia | ].
  destruct (Z.eqb_spec (weekday df_last_date) 4) as [Hfri | Hfri].
  - split_add keras_utils.error df_last_date 3; [ | left; split; [auto | split; [lia | reflexivity]]].
    ord_bools. rewrite Ho0.
    destruct (Z.ltb_spec (toordinal df_last_date + 3) (toordinal pred_date))
      as [Hup | Hup].
    + right; left. unfold keras_utils.InvalidPredictionDateError.
      split_add keras_utils.error df_last_date 1; [ | lia].
      auto.
    + cbn [bind]. do 4 right. repeat split; try lia; contradiction.
  - unfold sub_days. change (Z.opp 1) with (Zneg 1).
    split_add keras_utils.error pred_date (-1);
      [ | right; right; left; repeat split; auto; lia].
    ord_bools. rewrite Ho0.
    destruct (Z.ltb_spec (toordinal df_last_date) (toordinal pred_date + -1))
      as [Hup | Hup].
    + do 3 right; left. unfold keras_utils.InvalidPredictionDateError.
      pose proof (maxordinal_friday _ Hl Hfri).
      split_add keras_utils.error df_last_date 1; [ | lia].
      repeat split; auto; lia.
    + cbn [bind]. do 4 right. repeat split; try lia; contradiction.
Qed.

Lemma friday_not_last x :
  valid x -> weekday x = 4 -> toordinal x <> _MAXORDINAL ->
  toordinal x + 7 <= _MAXORDINAL.
Proof.
  intros Hv Hw Hne. pose proof (toordinal_bounds x Hv) as Hb.
  unfold weekday, _MAXORDINAL in *. Z.div_mod_to_equations. lia.
Qed.

Lemma utils_get_correct_pred_date_cases pred_date df_last_date :
  valid pred_date -> valid df_last_date ->
  let r := utils.get_correct_pred_date pred_date df_last_date in
  let TooLate :=
    Raise (UserError (utils.InvalidPredictionDateError_ pred_date df_last_date
             (fromordinal (toordinal df_last_date + 1)))) in
  (weekday df_last_date = 4
   /\ ((toordinal df_last_date = _MAXORDINAL /\ r = Raise OverflowError)
       \/ (toordinal df_last_date + 7 <= _MAXORDINAL
           /\ ((toordinal pred_date = toordinal df_last_date + 1
                /\ r = Ok (fromordinal (toordinal pred_date + 2)))
               \/ (toordinal pred_date = toordinal df_last_date + 2
                   /\ r = Ok (fromordinal (toordinal pred_date + 1)))
               \/ (toordinal df_last_date + 3 < toordinal pred_date
                   /\ r = TooLate)
               \/ ((toordinal pred_date <= toordinal df_last_date
                    \/ toordinal pred_date = toordinal df_last_date + 3)
                   /\ r = Ok pred_date)))))
  \/ (weekday df_last_date <> 4
      /\ ((toordinal pred_date = 1 /\ r = Raise OverflowError)
          \/ (toordinal df_last_date + 1 < toordinal pred_date /\ r = TooLate)
          \/ (1 < toordinal pred_date <= toordinal df_last_date + 1
              /\ r = Ok pred_date))).
Proof.
  intros Hp Hl. cbv zeta.
  pose proof (toordinal_bounds _ Hp) as Bp.
  pose proof (toordinal_bounds _ Hl) as Bl.
  unfold utils.get_correct_pred_date.
  destruct (Z.eqb_spec (weekday df_last_date) 4) as [Hfri | Hfri]; [left | right];
    (split; [assumption | ]).
  - destruct (Z.eq_dec (toordinal df_last_date) _MAXORDINAL) as [Hmax | Hmax].
    { left. split; [assumption | ].
      split_add utils.error df_last_date 1; [lia | reflexivity]. }
    right. pose proof (friday_not_last _ Hl Hfri Hmax) as H7.
    split; [assumption | ].
    split_add utils.error df_last_date 1; [ | lia].
    ord_bools. rewrite Ho.
    destruct (Z.eqb_spec (toordinal pred_date) (toordinal df_last_date + 1)) as [H1 | H1].
    { left. split; [assumption | ].
      split_add utils.error pred_date 2; [ | lia]. reflexivity. }
    right.
    split_add utils.error df_last_date 2; [ | lia].
    ord_bools. rewrite Ho0.
    destruct (Z.eqb_spec (toordinal pred_date) (toordinal df_last_date + 2)) as [H2 | H2].
    { left. split; [assumption | ].
      split_add utils.error pred_date 1; [ | lia]. reflexivity. }
    right.
    split_add utils.error df_last_date 3; [ | lia].
    ord_bools. rewrite Ho1.
    destruct (Z.ltb_spec (toordinal df_last_date + 3) (toordinal pred_date)) as [H3 | H3].
    + left. split; [assumption | ]. unfold utils.InvalidPredictionDateError.
      rewrite E. reflexivity.
    + right. split; [lia | reflexivity].
  - unfold sub_days. change (Z.opp 1) with (Zneg 1).
    split_add utils.error pred_date (-1); [ | left; split; [lia | reflexivity]].
    right. ord_bools. rewrite Ho.
    destruct (Z.ltb_spec (toordinal df_last_date) (toordinal pred_date + -1))
      as [Hup | Hup].
    + left. split; [lia | ]. unfold utils.InvalidPredictionDateError.
      pose proof (maxordinal_friday _ Hl Hfri).
      split_add utils.error df_last_date 1; [ | lia]. reflexivity.
    + right. split; [lia | reflexivity].
Qed.

Lemma weekday_add x y k :
  toordinal y = toordinal x + k -> weekday y = (weekday x + k) mod 7.
Proof.
  intros H. unfold weekday. rewrite H.
  rewrite Zplus_mod_idemp_l. f_equal. lia.
Qed.

Lemma bind_Ok {E A B} (r : result E A) (k : A -> result E B) b :
  bind r k = Ok b -> exists a, r = Ok a /\ k a = Ok b.
Proof. destruct r as [a | e]; cbn; [eauto | discriminate]. Qed.

Lemma keras_get_correct_pred_date_Ok pred_date df_first_date df_last_date seq_len r :
  keras_utils.get_correct_pred_date pred_date df_first_date df_last_date seq_len
  = Ok r ->
  keras_utils.weekend_snap pred_date = Ok r.
Proof.
  unfold keras_utils.get_correct_pred_date. intros H.
  apply bind_Ok in H as (e & _ & H).
  destruct (gtb e pred_date).
  - unfold keras_utils.InvalidPredictionDateError in H.
    apply bind_Ok in H as (l & _ & H). discriminate.
  - apply bind_Ok in H as (u & _ & H). exact H.
Qed.

Lemma new_date_valid {U} y m d x :
  new_date (U := U) y m d = Ok x -> valid x /\ x = mkdate y m d.
Proof.
  unfold new_date, valid. destruct (check_date_fields y m d) eqn:H; [ | discriminate].
  intros [= <-]. auto.
Qed.

Lemma strptime_valid {U} s x : strptime (U := U) s = Ok x -> valid x.
Proof.
  unfold strptime. destruct (format_regex_match s) as [[[[Y m] d] rest] | ];
    [ | discriminate].
  destruct (negb _); [discriminate | ]. intros H. apply new_date_valid in H. tauto.
Qed.

Lemma keras_get_date_from_string_Ok s x :
  keras_utils.get_date_from_string s = Ok x <-> strptime (U := keras_utils.error) s = Ok x.
Proof.
  unfold keras_utils.get_date_from_string, keras_utils.InvalidDateError.
  destruct (strptime s) as [d | []]; split; congruence.
Qed.

Lemma weekend_snap_weekday pred_date m :
  valid pred_date -> keras_utils.weekend_snap pred_date = Ok m ->
  valid m /\ 0 <= weekday m <= 4
  /\ toordinal pred_date <= toordinal m <= toordinal pred_date + 2
  /\ (0 <= weekday pred_date <= 4 -> m = pred_date)
  /\ (m <> pred_date ->
      (weekday pred_date = 5 \/ weekday pred_date = 6) /\ weekday m = 0).
Proof.
  intros Hp Hm.
  destruct (weekend_snap_spec pred_date Hp) as (m' & Hm' & Hv & Ho).
  assert (m' = m) by congruence. subst m'.
  pose proof (weekday_add _ _ _ Ho) as Hw.
  pose proof (weekday_range pred_date) as Hr.
  assert (Hsame : toordinal m = toordinal pred_date -> m = pred_date)
    by (apply toordinal_inj; auto).
  destruct (Z.eqb_spec (weekday pred_date) 5) as [H5 | H5];
    [ | destruct (Z.eqb_spec (weekday pred_date) 6) as [H6 | H6]].
  - rewrite H5 in Hw. change ((5 + 2) mod 7) with 0 in Hw.
    split; [assumption | ]. split; [lia | ]. split; [lia | ].
    split; [lia | auto].
  - rewrite H6 in Hw. change ((6 + 1) mod 7) with 0 in Hw.
    split; [assumption | ]. split; [lia | ]. split; [lia | ].
    split; [lia | auto].
  - rewrite Z.add_0_r in Hw, Ho. rewrite Z.mod_small in Hw by lia.
    split; [assumption | ]. split; [lia | ]. split; [lia | ].
    split; [auto | ]. intros Hne. exfalso. auto.
Qed.

Lemma utils_get_correct_pred_date_Ok pred_date df_last_date r :
  valid pred_date -> valid df_last_date ->
  utils.get_correct_pred_date pred_date df_last_date = Ok r ->
  if (weekday df_last_date =? 4)
     && (toordinal pred_date =? toordinal df_last_date + 1)
  then weekday pred_date = 5 /\ toordinal r = toordinal pred_date + 2
       /\ weekday r = 0
  else if (weekday df_last_date =? 4)
          && (toordinal pred_date =? toordinal df_last_date + 2)
  then weekday pred_date = 6 /\ toordinal r = toordinal pred_date + 1
       /\ weekday r = 0
  else r = pred_date.
Proof.
  intros Hp Hl Hr.
  pose proof (toordinal_bounds _ Hp) as Bp.
  pose proof (toordinal_bounds _ Hl) as Bl.
  destruct (utils_get_correct_pred_date_cases pred_date df_last_date Hp Hl)
    as [(Hfri & [(_ & E) | (H7 & [(H & E) | [(H & E) | [(H & E) | (H & E)]]])])
       | (Hfri & [(H & E) | [(H & E) | (H & E)]])];
    cbv zeta in E; rewrite E in Hr; try discriminate; injection Hr as <-;
    destruct (Z.eqb_spec (weekday df_last_date) 4);
    destruct (Z.eqb_spec (toordinal pred_date) (toordinal df_last_date + 1));
    destruct (Z.eqb_spec (toordinal pred_date) (toordinal df_last_date + 2));
    cbn [andb]; try lia; try reflexivity.
  - assert (Hw : weekday pred_date = 5).
    { rewrite (weekday_add df_last_date pred_date 1 H), Hfri. reflexivity. }
    assert (Ho : toordinal (fromordinal (toordinal pred_date + 2))
                 = toordinal pred_date + 2)
      by (apply toordinal_fromordinal; lia).
    rewrite (weekday_add _ _ _ Ho), Hw. auto.
  - assert (Hw : weekday pred_date = 6).
    { rewrite (weekday_add df_last_date pred_date 2 H), Hfri. reflexivity. }
    assert (Ho : toordinal (fromordinal (toordinal pred_date + 1))
                 = toordinal pred_date + 1)
      by (apply toordinal_fromordinal; lia).
    rewrite (weekday_add _ _ _ Ho), Hw. auto.
Qed.

(** The lower-bound check of [keras_utils], in ordinals. *)
Lemma lower_bound_passes pred_date df_first_date seq_len :
  valid pred_date -> valid df_first_date ->
  (exists earliest,
     add_days (U := keras_utils.error) df_first_date seq_len = Ok earliest
     /\ gtb earliest pred_date = false) <->
  1 <= toordinal df_first_date + seq_len <= toordinal pred_date.
Proof.
  intros Hp Hf. pose proof (toordinal_bounds _ Hp) as Bp. split.
  - intros (e & He & Hg).
    destruct (add_days_Ok _ _ _ He) as [Hv Ho].
    rewrite (gtb_ord _ _ Hv Hp), Z.ltb_ge in Hg.
    pose proof (toordinal_bounds _ Hv). lia.
  - intros H.
    destruct (add_days_cases (U := keras_utils.error) df_first_date seq_len)
      as [[Hr E] | [Hr E]]; [ | lia].
    eexists. split; [exact E | ].
    rewrite gtb_ord by auto using fromordinal_valid.
    rewrite toordinal_fromordinal by lia. apply Z.ltb_ge. lia.
Qed.

Ltac keras_cases pred first last seq Hp Hf Hl :=
  let E := fresh "E" in
  destruct (keras_get_correct_pred_date_cases pred first last seq Hp Hf Hl)
    as [[? E] | [(? & ? & E) | (? & [(? & ? & E) | [(? & ? & E)
       | [(? & ? & E) | [(? & ? & E) | (? & ? & E)]]]])]];
  cbv zeta in E; rewrite E; clear E.

Ltac utils_cases pred last Hp Hl :=
  let E := fresh "E" in
  destruct (utils_get_correct_pred_date_cases pred last Hp Hl)
    as [(? & [(? & E) | (? & [(? & E) | [(? & E) | [(? & E) | (? & E)]]])])
       | (? & [(? & E) | [(? & E) | (? & E)]])];
  cbv zeta in E; rewrite E; clear E.

(** ** [strptime] and [isoformat] *)

Lemma hd_error_In {A} (l : list A) x : hd_error l = Some x -> In x l.
Proof. destruct l; cbn; [discriminate | intros [= ->]; auto]. Qed.

Lemma re_class_In p s a r :
  In (a, r) (re_class p s) ->
  exists c, s = String c r /\ a = String c EmptyString /\ p c = true.
Proof.
  unfold re_class. destruct s as [ | c s]; [intros [] | ].
  destruct (p c) eqn:Hp; [ | intros []].
  intros [[= <- <-] | []]. eauto.
Qed.

Lemma re_seq_In p q s a r :
  In (a, r) (re_seq p q s) ->
  exists a1 r1 a2,
    In (a1, r1) (p s) /\ In (a2, r) (q r1) /\ a = (a1 ++ a2)%string.
Proof.
  unfold re_seq. rewrite in_flat_map. intros ([a1 r1] & H1 & H2).
  rewrite in_map_iff in H2. destruct H2 as ([a2 r2] & [= <- <-] & H2).
  eauto 7.
Qed.

Lemma re_alt_In p q s x : In x (re_alt p q s) -> In x (p s) \/ In x (q s).
Proof. unfold re_alt. apply in_app_or. Qed.

Lemma in_range_chars lo hi c :
  in_range lo hi c = true ->
  In c (map (fun k => ascii_of_nat (nat_of_ascii lo + k))
            (seq 0 (S (nat_of_ascii hi - nat_of_ascii lo)))).
Proof.
  unfold in_range. rewrite andb_true_iff, !N.leb_le. intros [H1 H2].
  apply in_map_iff. exists (nat_of_ascii c - nat_of_ascii lo)%nat.
  unfold nat_of_ascii in *. split.
  - replace (_ + _)%nat with (N.to_nat (N_of_ascii c)) by lia.
    apply ascii_nat_embedding.
  - apply in_seq. lia.
Qed.

(** Turns membership in the result of a matcher into the characters
    matched; characters of a class are enumerated. *)
Ltac inv_re :=
  repeat match goal with
    | H : In _ (re_alt _ _ _) |- _ =>
        apply re_alt_In in H; destruct H as [H | H]
    | H : In (_, _) (re_seq _ _ _) |- _ =>
        apply re_seq_In in H; destruct H as (? & ? & ? & ? & ? & ->)
    | H : In (_, _) (re_chr _ _) |- _ => unfold re_chr in H
    | H : In (_, _) (re_rng _ _ _) |- _ => unfold re_rng in H
    | H : In (_, _) (re_digit _) |- _ => unfold re_digit in H
    | H : In (_, _) (re_class _ _) |- _ =>
        apply re_class_In in H; destruct H as (? & -> & -> & ?)
    | H : Ascii.eqb _ _ = true |- _ => apply Ascii.eqb_eq in H; subst
    end.

Ltac enum_chars :=
  repeat match goal with
    | H : in_range _ _ ?c = true |- _ =>
        apply in_range_chars in H; cbv in H;
        repeat (destruct H as [H | H]; [subst c | ]); [ .. | destruct H]
    end.

Lemma format_0d_1 n :
  0 <= n <= 9 -> format_0d 1 n = String (digit_char n) EmptyString.
Proof.
  intros Hn.
  assert (Hall :
    forallb (fun k => let n := Z.of_nat k in
      String.eqb (format_0d 1 n) (String (digit_char n) EmptyString))
      (seq 0 10) = true) by (vm_compute; reflexivity).
  rewrite forallb_forall in Hall. specialize (Hall (Z.to_nat n)).
  rewrite Z2Nat.id in Hall by lia. apply String.eqb_eq, Hall, in_seq. lia.
Qed.

Lemma format_0d_2 n :
  0 <= n <= 99 ->
  format_0d 2 n
  = String (digit_char (n / 10)) (String (digit_char (n mod 10)) EmptyString).
Proof.
  intros Hn.
  assert (Hall :
    forallb (fun k => let n := Z.of_nat k in
      String.eqb (format_0d 2 n)
        (String (digit_char (n / 10))
           (String (digit_char (n mod 10)) EmptyString)))
      (seq 0 100) = true) by (vm_compute; reflexivity).
  rewrite forallb_forall in Hall. specialize (Hall (Z.to_nat n)).
  rewrite Z2Nat.id in Hall by lia. apply String.eqb_eq, Hall, in_seq. lia.
Qed.

Lemma decimal_lt10 f n :
  n < 10 -> decimal (S f) n = String (digit_char n) EmptyString.
Proof. intros H. cbn [decimal]. destruct (Z.ltb_spec n 10); [reflexivity | lia]. Qed.

Lemma decimal_ge10 f n :
  10 <= n ->
  decimal (S f) n
  = (decimal f (n / 10) ++ String (digit_char (n mod 10)) EmptyString)%string.
Proof. intros H. cbn [decimal]. destruct (Z.ltb_spec n 10); [lia | reflexivity]. Qed.

Lemma format_0d_4 n :
  0 <= n <= 9999 ->
  format_0d 4 n
  = String (digit_char (n / 1000))
      (String (digit_char (n / 100 mod 10))
         (String (digit_char (n / 10 mod 10))
            (String (digit_char (n mod 10)) EmptyString))).
Proof.
  intros Hn. unfold format_0d. cbv zeta.
  destruct (Z_lt_le_dec n 10) as [H1 | H1];
    [ | destruct (Z_lt_le_dec n 100) as [H2 | H2];
        [ | destruct (Z_lt_le_dec n 1000) as [H3 | H3]]].
  - rewrite decimal_lt10 by lia. cbn [String.length Nat.sub zeros String.append].
    replace (n / 1000) with 0 by (Z.div_mod_to_equations; lia).
    replace (n / 100 mod 10) with 0 by (Z.div_mod_to_equations; lia).
    replace (n / 10 mod 10) with 0 by (Z.div_mod_to_equations; lia).
    replace (n mod 10) with n by (Z.div_mod_to_equations; lia).
    reflexivity.
  - assert (Hlog : 3 <= Z.log2 n) by (apply Z.log2_le_pow2; cbn; lia).
    destruct (Z.to_nat (Z.log2 n)) as [ | f] eqn:E; [lia | ].
    rewrite decimal_ge10, decimal_lt10 by (Z.div_mod_to_equations; lia).
    cbn [String.length Nat.sub zeros String.append].
    replace (n / 1000) with 0 by (Z.div_mod_to_equations; lia).
    replace (n / 100 mod 10) with 0 by (Z.div_mod_to_equations; lia).
    replace (n / 10 mod 10) with (n / 10) by (Z.div_mod_to_equations; lia).
    reflexivity.
  - assert (Hlog : 6 <= Z.log2 n) by (apply Z.log2_le_pow2; cbn; lia).
    destruct (Z.to_nat (Z.log2 n)) as [ | [ | f]] eqn:E; try lia.
    rewrite decimal_ge10, decimal_ge10, decimal_lt10
      by (Z.div_mod_to_equations; lia).
    cbn [String.length Nat.sub zeros String.append].
    replace (n / 1000) with 0 by (Z.div_mod_to_equations; lia).
    replace (n / 100 mod 10) with (n / 10 / 10) by (Z.div_mod_to_equations; lia).
    replace (n / 10 mod 10) with (n / 10 mod 10) by reflexivity.
    reflexivity.
  - assert (Hlog : 9 <= Z.log2 n) by (apply Z.log2_le_pow2; cbn; lia).
    destruct (Z.to_nat (Z.log2 n)) as [ | [ | [ | f]]] eqn:E; try lia.
    rewrite decimal_ge10, decimal_ge10, decimal_ge10, decimal_lt10
      by (Z.div_mod_to_equations; lia).
    cbn [String.length Nat.sub zeros String.append].
    replace (n / 1000) with (n / 10 / 10 / 10) by (Z.div_mod_to_equations; lia).
    replace (n / 100 mod 10) with (n / 10 / 10 mod 10)
      by (Z.div_mod_to_equations; lia).
    reflexivity.
Qed.

Lemma digit_value_range c :
  in_range "0" "9" c = true ->
  0 <= digit_value c <= 9 /\ digit_char (digit_value c) = c.
Proof.
  unfold in_range, digit_value, digit_char. rewrite andb_true_iff, !N.leb_le.
  change (N_of_ascii "0") with 48%N. change (N_of_ascii "9") with 57%N.
  intros [H1 H2]. split; [lia | ].
  replace (Z.to_N _) with (N_of_ascii c) by lia. apply ascii_N_embedding.
Qed.

Lemma lstrip_digit c r :
  in_range "0" "9" c = true -> lstrip (String c r) = String c r.
Proof. intros H. enum_chars; reflexivity. Qed.

Lemma re_Y_In Y r s :
  In (Y, r) (re_Y s) ->
  s = (Y ++ r)%string /\ 0 <= int Y <= 9999 /\ Y = format_0d 4 (int Y).
Proof.
  unfold re_Y. intros H. inv_re. split; [reflexivity | ].
  cbn [String.append].
  unfold int. rewrite lstrip_digit by assumption. cbn [int_digits].
  repeat match goal with
    | H : in_range "0" "9" ?c = true |- _ =>
        let R := fresh "R" in let D := fresh "D" in
        destruct (digit_value_range c H) as [R D]; clear H;
        revert D; unfold digit_value in *;
        generalize dependent (Z.of_N (N_of_ascii c) - 48); intros
    end.
  split; [lia | ].
  rewrite format_0d_4 by lia. subst.
  repeat f_equal; Z.div_mod_to_equations; lia.
Qed.

Lemma re_chr_In a x r s : In (x, r) (re_chr a s) -> s = String a r.
Proof. intros H. inv_re. reflexivity. Qed.

Lemma re_m_In m r s :
  In (m, r) (re_m s) ->
  s = (m ++ r)%string /\ 1 <= int m <= 12
  /\ (m = format_0d 2 (int m) \/ (int m <= 9 /\ m = format_0d 1 (int m))).
Proof.
  unfold re_m. intros H. inv_re; enum_chars;
    (split; [reflexivity | split; [vm_compute; split; discriminate | ]]);
    first [left; reflexivity
          | right; split; [vm_compute; discriminate | reflexivity]].
Qed.

Lemma re_d_In d r s :
  In (d, r) (re_d s) ->
  s = (d ++ r)%string /\ 1 <= int d <= 31
  /\ (d = format_0d 2 (int d)
      \/ (int d <= 9
          /\ (d = format_0d 1 (int d)
              \/ d = String " " (format_0d 1 (int d))))).
Proof.
  unfold re_d. intros H. inv_re; enum_chars;
    (split; [reflexivity | split; [vm_compute; split; discriminate | ]]);
    first [left; reflexivity
          | right; split; [vm_compute; discriminate | ];
            first [left; reflexivity | right; reflexivity]].
Qed.

Lemma format_regex_match_Some s Y m d rest :
  format_regex_match s = Some (Y, m, d, rest) ->
  s = (Y ++ "-" ++ m ++ "-" ++ d ++ rest)%string
  /\ In (Y, ("-" ++ m ++ "-" ++ d ++ rest)%string) (re_Y s)
  /\ In (m, ("-" ++ d ++ rest)%string) (re_m (m ++ "-" ++ d ++ rest)%string)
  /\ In (d, rest) (re_d (d ++ rest)%string).
Proof.
  unfold format_regex_match. intros H. apply hd_error_In in H.
  apply in_flat_map in H as ([Y' r1] & HY & H).
  apply in_flat_map in H as ([x1 r2] & H1 & H).
  apply in_flat_map in H as ([m' r3] & Hm & H).
  apply in_flat_map in H as ([x2 r4] & H2 & H).
  apply in_map_iff in H as ([d' r5] & [= -> -> -> ->] & Hd).
  apply re_chr_In in H1, H2. subst r1 r3.
  pose proof (re_Y_In _ _ _ HY) as (-> & _).
  pose proof (re_m_In _ _ _ Hm) as (-> & _).
  pose proof (re_d_In _ _ _ Hd) as (-> & _).
  cbn [String.append]. auto.
Qed.

Lemma int_two_digits a b :
  in_range "0" "9" a = true -> in_range "0" "9" b = true ->
  0 <= int (String a (String b "")) <= 99
  /\ String a (String b "") = format_0d 2 (int (String a (String b ""))).
Proof.
  intros Ha Hb. unfold int. rewrite lstrip_digit by assumption.
  cbn [int_digits].
  destruct (digit_value_range a Ha) as [Ra Da].
  destruct (digit_value_range b Hb) as [Rb Db].
  unfold digit_value in *.
  revert Da Db. generalize dependent (Z.of_N (N_of_ascii a) - 48).
  generalize dependent (Z.of_N (N_of_ascii b) - 48). intros vb Rb va Ra Da Db.
  split; [lia | ]. rewrite format_0d_2 by lia. subst.
  repeat f_equal; Z.div_mod_to_equations; lia.
Qed.

Lemma format_regex_match_year y1 y2 y3 y4 r :
  in_range "0" "9" y1 = true -> in_range "0" "9" y2 = true ->
  in_range "0" "9" y3 = true -> in_range "0" "9" y4 = true ->
  format_regex_match (String y1 (String y2 (String y3 (String y4 r))))
  = hd_error
      (flat_map (fun '(_, r) =>
         flat_map (fun '(m, r) =>
           flat_map (fun '(_, r) =>
             map (fun '(d, r) =>
                    (String y1 (String y2 (String y3 (String y4 ""))), m, d, r))
                 (re_d r))
             (re_chr "-" r))
           (re_m r))
         (re_chr "-" r)).
Proof.
  intros H1 H2 H3 H4.
  unfold format_regex_match, re_Y, re_digit, re_rng.
  unfold re_seq at 1 2 3. unfold re_class at 1 2 3 4.
  rewrite H1. cbn [flat_map map app]. rewrite H2. cbn [flat_map map app].
  rewrite H3. cbn [flat_map map app]. rewrite H4.
  cbn [flat_map map app String.append]. rewrite app_nil_r. reflexivity.
Qed.

Ltac enum_in H x :=
  repeat (destruct H as [H | H]; [subst x | ]); [ .. | destruct H].

Lemma format_regex_match_exact y1 y2 y3 y4 k j :
  in_range "0" "9" y1 = true -> in_range "0" "9" y2 = true ->
  in_range "0" "9" y3 = true -> in_range "0" "9" y4 = true ->
  1 <= k <= 12 -> 1 <= j <= 31 ->
  format_regex_match
    (String y1 (String y2 (String y3 (String y4
       ("-" ++ format_0d 2 k ++ "-" ++ format_0d 2 j)))))
  = Some (String y1 (String y2 (String y3 (String y4 ""))),
          format_0d 2 k, format_0d 2 j, ""%string).
Proof.
  intros H1 H2 H3 H4 Hk Hj.
  rewrite format_regex_match_year by assumption.
  assert (Ck : In k (map Z.of_nat (seq 1 12))).
  { apply in_map_iff. exists (Z.to_nat k). split; [lia | apply in_seq; lia]. }
  assert (Cj : In j (map Z.of_nat (seq 1 31))).
  { apply in_map_iff. exists (Z.to_nat j). split; [lia | apply in_seq; lia]. }
  cbv in Ck, Cj.
  enum_in Ck k; enum_in Cj j; reflexivity.
Qed.

(** * The claims *)

(** ** C1: the weekend snap *)

(** Against C1 on [utils/utils.py]: with the data ending on
    Wednesday 2024-01-10 the Saturday 2024-01-06 passes the check of
    [utils.get_correct_pred_date] and is returned as it is, not advanced to
    Monday. *)
Lemma C1_utils_keeps_saturday :
  let pred_date := mkdate 2024 1 6 in
  let df_last_date := mkdate 2024 1 10 in
  valid pred_date /\ valid df_last_date /\ weekday pred_date = 5 /\
  weekday df_last_date = 2 /\
  utils.get_correct_pred_date pred_date df_last_date = Ok pred_date /\
  utils.get_correct_pred_date pred_date df_last_date <> Ok (mkdate 2024 1 8).
Proof. vm_compute. repeat split; discriminate. Qed.

(** C1, as it holds on the code.  In [keras_utils] the snap [m] of the
    candidate always exists: a Saturday is moved 2 days on to a Monday, a
    Sunday 1 day on to a Monday, a weekday is kept; every successful
    resolution returns [m], and a candidate that passes the two bound checks
    is resolved to [m].
    In [utils] a successful resolution moves the candidate only when the
    data ends on a Friday and the candidate is the Saturday or the Sunday
    right after it (to the Monday after); any other candidate is returned
    unchanged.  With the data ending on Friday 2024-01-05 both resolve
    Saturday 2024-01-06 to Monday 2024-01-08, which differs from the
    request. *)
Theorem C1_weekend_snap pred_date df_first_date df_last_date seq_len :
  valid pred_date -> valid df_first_date -> valid df_last_date ->
  (exists m,
     keras_utils.weekend_snap pred_date = Ok m /\ valid m /\
     (weekday pred_date = 5 ->
      toordinal m = toordinal pred_date + 2 /\ weekday m = 0) /\
     (weekday pred_date = 6 ->
      toordinal m = toordinal pred_date + 1 /\ weekday m = 0) /\
     (0 <= weekday pred_date <= 4 -> m = pred_date) /\
     (forall r,
        keras_utils.get_correct_pred_date pred_date df_first_date df_last_date
          seq_len = Ok r -> r = m) /\
     (1 <= toordinal df_first_date + seq_len <= toordinal pred_date ->
      (weekday df_last_date = 4 ->
       toordinal pred_date <= toordinal df_last_date + 3 <= _MAXORDINAL) ->
      (weekday df_last_date <> 4 ->
       1 < toordinal pred_date <= toordinal df_last_date + 1) ->
      keras_utils.get_correct_pred_date pred_date df_first_date df_last_date
        seq_len = Ok m))
  /\ (forall r,
        utils.get_correct_pred_date pred_date df_last_date = Ok r ->
        if (weekday df_last_date =? 4)
           && (toordinal pred_date =? toordinal df_last_date + 1)
        then weekday pred_date = 5 /\ toordinal r = toordinal pred_date + 2
             /\ weekday r = 0
        else if (weekday df_last_date =? 4)
                && (toordinal pred_date =? toordinal df_last_date + 2)
        then weekday pred_date = 6 /\ toordinal r = toordinal pred_date + 1
             /\ weekday r = 0
        else r = pred_date)
  /\ keras_utils.get_correct_pred_date (mkdate 2024 1 6) (mkdate 2023 1 2)
       (mkdate 2024 1 5) 60 = Ok (mkdate 2024 1 8)
  /\ utils.get_correct_pred_date (mkdate 2024 1 6) (mkdate 2024 1 5)
     = Ok (mkdate 2024 1 8)
  /\ weekday (mkdate 2024 1 5) = 4 /\ weekday (mkdate 2024 1 6) = 5
  /\ weekday (mkdate 2024 1 8) = 0 /\ mkdate 2024 1 8 <> mkdate 2024 1 6.
Proof.
  intros Hp Hf Hl.
  split; [ | split; [ | vm_compute; repeat split; discriminate]].
  - destruct (weekend_snap_spec pred_date Hp) as (m & Hm & Hvm & Hom).
    exists m. split; [exact Hm | split; [exact Hvm | ]].
    pose proof (weekday_add _ _ _ Hom) as Hwd.
    pose proof (weekday_range pred_date) as Hwr.
    split; [ | split; [ | split; [ | split]]].
    + intros H5. rewrite Hwd, H5. rewrite H5 in Hom.
      split; [exact Hom | reflexivity].
    + intros H6. rewrite Hwd, H6. rewrite H6 in Hom. cbn in Hom.
      split; [exact Hom | reflexivity].
    + intros H04.
      destruct (Z.eqb_spec (weekday pred_date) 5); [lia | ].
      destruct (Z.eqb_spec (weekday pred_date) 6); [lia | ].
      apply toordinal_inj; auto. lia.
    + intros r Hr. apply keras_get_correct_pred_date_Ok in Hr. congruence.
    + intros Hlow Hfri Hnfri.
      destruct (keras_get_correct_pred_date_cases pred_date df_first_date
                  df_last_date seq_len Hp Hf Hl)
        as [[H _] | [(_ & H & _) | (_ & [(H1 & H2 & _) | [(H1 & H2 & _)
           | [(H1 & H2 & _) | [(H1 & H2 & _) | (_ & _ & E)]]]])]];
        try (exfalso; pose proof (toordinal_bounds _ Hp);
             first [lia | specialize (Hfri H1); lia | specialize (Hnfri H1); lia]).
      cbv zeta in E. rewrite E. exact Hm.
  - intros r Hr. exact (utils_get_correct_pred_date_Ok _ _ _ Hp Hl Hr).
Qed.

Lemma C1_weekend_snap_witness :
  valid (mkdate 2024 1 7) /\
  forall r,
    keras_utils.get_correct_pred_date (mkdate 2024 1 7) (mkdate 2023 1 2)
      (mkdate 2024 1 5) 60 = Ok r -> r = mkdate 2024 1 8.
Proof.
  split; [reflexivity | ].
  destruct (C1_weekend_snap (mkdate 2024 1 7) (mkdate 2023 1 2)
              (mkdate 2024 1 5) 60 eq_refl eq_refl eq_refl)
    as [(m & Hm & _ & _ & _ & _ & Hr & _) _].
  intros r H. rewrite (Hr r H).
  vm_compute in Hm. injection Hm as <-. reflexivity.
Defined.

(** ** C2: the upper bound after a Friday *)

(** C2.  When the data ends on a Friday, each resolver fails with its
    [InvalidPredictionDateError] for the upper bound (in [keras_utils], after
    the lower-bound check has passed) exactly when the candidate is more than
    3 days after the last date; a candidate at or before the Monday after
    that Friday (when that Monday is a date of the calendar) is resolved.
    With the data ending on Friday 2024-01-05, Tuesday 2024-01-09 fails. *)
Theorem C2_friday_upper_bound pred_date df_first_date df_last_date seq_len :
  valid pred_date -> valid df_first_date -> valid df_last_date ->
  weekday df_last_date = 4 ->
  ((exists earliest,
      add_days (U := keras_utils.error) df_first_date seq_len = Ok earliest
      /\ gtb earliest pred_date = false) ->
   ((exists limit,
       keras_utils.get_correct_pred_date pred_date df_first_date df_last_date
         seq_len
       = Raise (UserError (keras_utils.InvalidPredictionDateError_ pred_date
                             df_last_date seq_len false limit)))
    <-> toordinal df_last_date + 3 < toordinal pred_date)
   /\ (toordinal pred_date <= toordinal df_last_date + 3 <= _MAXORDINAL ->
       exists r,
         keras_utils.get_correct_pred_date pred_date df_first_date
           df_last_date seq_len = Ok r))
  /\ ((exists till,
         utils.get_correct_pred_date pred_date df_last_date
         = Raise (UserError (utils.InvalidPredictionDateError_ pred_date
                               df_last_date till)))
      <-> toordinal df_last_date + 3 < toordinal pred_date)
  /\ (toordinal pred_date <= toordinal df_last_date + 3 <= _MAXORDINAL ->
      exists r, utils.get_correct_pred_date pred_date df_last_date = Ok r)
  /\ weekday (mkdate 2024 1 5) = 4 /\ weekday (mkdate 2024 1 9) = 1
  /\ keras_utils.get_correct_pred_date (mkdate 2024 1 9) (mkdate 2023 1 2)
       (mkdate 2024 1 5) 60
     = Raise (UserError (keras_utils.InvalidPredictionDateError_
                (mkdate 2024 1 9) (mkdate 2024 1 5) 60 false (mkdate 2024 1 6)))
  /\ utils.get_correct_pred_date (mkdate 2024 1 9) (mkdate 2024 1 5)
     = Raise (UserError (utils.InvalidPredictionDateError_
                (mkdate 2024 1 9) (mkdate 2024 1 5) (mkdate 2024 1 6))).
Proof.
  intros Hp Hf Hl Hfri.
  pose proof (toordinal_bounds _ Hp) as Bp.
  pose proof (toordinal_bounds _ Hl) as Bl.
  split; [ | split; [ | split; [ | vm_compute; repeat split]]].
  - intros Hlow. apply (lower_bound_passes _ _ _ Hp Hf) in Hlow.
    destruct (weekend_snap_spec pred_date Hp) as (m & Hm & _).
    split; [split | ].
    + intros [limit H]. revert H.
      keras_cases pred_date df_first_date df_last_date seq_len Hp Hf Hl;
        try discriminate; try lia; try contradiction.
      rewrite Hm. discriminate.
    + intros Hlate.
      keras_cases pred_date df_first_date df_last_date seq_len Hp Hf Hl;
        try lia; try contradiction; eauto.
    + intros Hok.
      keras_cases pred_date df_first_date df_last_date seq_len Hp Hf Hl;
        try lia; try contradiction; eauto.
  - split.
    + intros [till H]. revert H.
      utils_cases pred_date df_last_date Hp Hl;
        try discriminate; try lia; try contradiction.
    + intros Hlate.
      utils_cases pred_date df_last_date Hp Hl;
        try lia; try contradiction; eauto.
  - intros Hok.
    utils_cases pred_date df_last_date Hp Hl;
      try lia; try contradiction; eauto.
Qed.

Lemma C2_friday_upper_bound_witness :
  weekday (mkdate 2024 1 5) = 4 /\
  exists r,
    keras_utils.get_correct_pred_date (mkdate 2024 1 8) (mkdate 2023 1 2)
      (mkdate 2024 1 5) 60 = Ok r.
Proof.
  split; [reflexivity | ].
  refine (proj2 (proj1 (C2_friday_upper_bound (mkdate 2024 1 8) (mkdate 2023 1 2)
            (mkdate 2024 1 5) 60 eq_refl eq_refl eq_refl eq_refl) _) _).
  - exists (mkdate 2023 3 3). split; reflexivity.
  - vm_compute. split; discriminate.
Defined.


(** ** C3: the upper bound after any other day *)

(** C3.  When the data does not end on a Friday, each resolver fails with
    its [InvalidPredictionDateError] for the upper bound (in [keras_utils],
    after the lower-bound check has passed) exactly when the candidate is
    later than the day after the last date.  The candidate equal to the day
    after the last date is accepted, and so is the Monday after a last date
    that is a Friday.  Acceptance has no lower bound relative to the last
    date: every candidate up to the day after it is accepted, the first day
    of the calendar (0001-01-01) apart, whose eve [pred_date - 1 day] does
    not exist. *)
Theorem C3_weekday_upper_bound pred_date df_first_date df_last_date seq_len :
  valid pred_date -> valid df_first_date -> valid df_last_date ->
  ((exists earliest,
      add_days (U := keras_utils.error) df_first_date seq_len = Ok earliest
      /\ gtb earliest pred_date = false) ->
   (weekday df_last_date <> 4 ->
    ((exists limit,
        keras_utils.get_correct_pred_date pred_date df_first_date df_last_date
          seq_len
        = Raise (UserError (keras_utils.InvalidPredictionDateError_ pred_date
                              df_last_date seq_len false limit)))
     <-> toordinal df_last_date + 1 < toordinal pred_date)
    /\ (toordinal pred_date = toordinal df_last_date + 1 ->
        exists r,
          keras_utils.get_correct_pred_date pred_date df_first_date
            df_last_date seq_len = Ok r)
    /\ (1 < toordinal pred_date <= toordinal df_last_date + 1 ->
        exists r,
          keras_utils.get_correct_pred_date pred_date df_first_date
            df_last_date seq_len = Ok r))
   /\ (weekday df_last_date = 4 ->
       toordinal pred_date = toordinal df_last_date + 3 ->
       keras_utils.get_correct_pred_date pred_date df_first_date df_last_date
         seq_len = Ok pred_date))
  /\ (weekday df_last_date <> 4 ->
      ((exists till,
          utils.get_correct_pred_date pred_date df_last_date
          = Raise (UserError (utils.InvalidPredictionDateError_ pred_date
                                df_last_date till)))
       <-> toordinal df_last_date + 1 < toordinal pred_date)
      /\ (toordinal pred_date = toordinal df_last_date + 1 ->
          utils.get_correct_pred_date pred_date df_last_date = Ok pred_date)
      /\ (1 < toordinal pred_date <= toordinal df_last_date + 1 ->
          utils.get_correct_pred_date pred_date df_last_date = Ok pred_date))
  /\ (weekday df_last_date = 4 ->
      toordinal pred_date = toordinal df_last_date + 3 ->
      utils.get_correct_pred_date pred_date df_last_date = Ok pred_date).
Proof.
  intros Hp Hf Hl.
  pose proof (toordinal_bounds _ Hp) as Bp.
  pose proof (toordinal_bounds _ Hl) as Bl.
  split; [ | split].
  - intros Hlow. apply (lower_bound_passes _ _ _ Hp Hf) in Hlow.
    destruct (weekend_snap_spec pred_date Hp) as (m & Hm & Hvm & Hom).
    split; [intros Hnf; split; [split | split] | ].
    + intros [limit H]. revert H.
      keras_cases pred_date df_first_date df_last_date seq_len Hp Hf Hl;
        try discriminate; try lia; try contradiction.
      rewrite Hm. discriminate.
    + intros Hlate.
      keras_cases pred_date df_first_date df_last_date seq_len Hp Hf Hl;
        try lia; try contradiction; eauto.
    + intros Hok.
      keras_cases pred_date df_first_date df_last_date seq_len Hp Hf Hl;
        try lia; try contradiction; eauto.
    + intros Hok.
      keras_cases pred_date df_first_date df_last_date seq_len Hp Hf Hl;
        try lia; try contradiction; eauto.
    + intros Hfri Hmon.
      keras_cases pred_date df_first_date df_last_date seq_len Hp Hf Hl;
        try lia; try contradiction.
      rewrite Hm. f_equal. apply toordinal_inj; auto.
      assert (Hw : weekday pred_date = 0).
      { rewrite (weekday_add df_last_date pred_date 3 Hmon), Hfri. reflexivity. }
      rewrite Hw in Hom. cbn in Hom. lia.
  - intros Hnf. split; [split | split].
    + intros [till H]. revert H.
      utils_cases pred_date df_last_date Hp Hl;
        try discriminate; try lia; try contradiction.
    + intros Hlate.
      utils_cases pred_date df_last_date Hp Hl;
        try lia; try contradiction; eauto.
    + intros Hok.
      utils_cases pred_date df_last_date Hp Hl;
        try lia; try contradiction; eauto.
    + intros Hok.
      utils_cases pred_date df_last_date Hp Hl;
        try lia; try contradiction; eauto.
  - intros Hfri Hmon.
    utils_cases pred_date df_last_date Hp Hl;
      try lia; try contradiction; eauto.
Qed.

Lemma C3_weekday_upper_bound_witness :
  weekday (mkdate 2024 1 10) <> 4 /\
  exists r,
    keras_utils.get_correct_pred_date (mkdate 2024 1 11) (mkdate 2023 1 2)
      (mkdate 2024 1 10) 60 = Ok r.
Proof.
  split; [vm_compute; discriminate | ].
  refine (proj1 (proj2 (proj1 (proj1 (C3_weekday_upper_bound (mkdate 2024 1 11)
            (mkdate 2023 1 2) (mkdate 2024 1 10) 60 eq_refl eq_refl eq_refl) _)
            _)) _).
  - exists (mkdate 2023 3 3). split; reflexivity.
  - vm_compute. discriminate.
  - reflexivity.
Defined.

(** ** C4: the lower bound *)

(** C4.  [keras_utils], which is given [seq_len], fails with its
    [InvalidPredictionDateError] for the lower bound, carrying
    [df_first_date + seq_len], when that date is later than the candidate,
    and only then; first date 2024-01-01 with [seq_len = 10] and candidate
    2024-01-08 fails with 2024-01-11 as the earliest date.  [utils], which
    is not given [seq_len], makes no such check: every candidate within its
    upper bound is resolved, and its result depends on the data only through
    the last date. *)
Theorem C4_lower_bound pred_date df_first_date df_last_date seq_len :
  valid pred_date -> valid df_first_date -> valid df_last_date ->
  (forall earliest,
     add_days (U := keras_utils.error) df_first_date seq_len = Ok earliest ->
     gtb earliest pred_date = true ->
     keras_utils.get_correct_pred_date pred_date df_first_date df_last_date
       seq_len
     = Raise (UserError (keras_utils.InvalidPredictionDateError_ pred_date
                           df_first_date seq_len true earliest)))
  /\ (forall df_date limit,
        keras_utils.get_correct_pred_date pred_date df_first_date df_last_date
          seq_len
        = Raise (UserError (keras_utils.InvalidPredictionDateError_ pred_date
                              df_date seq_len true limit)) ->
        df_date = df_first_date
        /\ add_days (U := keras_utils.error) df_first_date seq_len = Ok limit
        /\ gtb limit pred_date = true)
  /\ ((weekday df_last_date = 4 ->
       toordinal pred_date <= toordinal df_last_date + 3 <= _MAXORDINAL) ->
      (weekday df_last_date <> 4 ->
       1 < toordinal pred_date <= toordinal df_last_date + 1) ->
      exists r, utils.get_correct_pred_date pred_date df_last_date = Ok r)
  /\ (forall w df1 df2 date,
        index_last (U := utils.error) df1 = index_last df2 ->
        utils.get_prediction_date w df1 date
        = utils.get_prediction_date w df2 date)
  /\ (forall last,
        keras_utils.get_correct_pred_date (mkdate 2024 1 8) (mkdate 2024 1 1)
          last 10
        = Raise (UserError (keras_utils.InvalidPredictionDateError_
                   (mkdate 2024 1 8) (mkdate 2024 1 1) 10 true
                   (mkdate 2024 1 11)))).
Proof.
  intros Hp Hf Hl.
  pose proof (toordinal_bounds _ Hp) as Bp.
  pose proof (toordinal_bounds _ Hl) as Bl.
  split; [ | split; [ | split; [ | split]]].
  - intros earliest He Hg. unfold keras_utils.get_correct_pred_date.
    rewrite He. cbn [bind]. rewrite Hg.
    unfold keras_utils.InvalidPredictionDateError. rewrite He. reflexivity.
  - intros df_date limit. unfold keras_utils.get_correct_pred_date.
    destruct (add_days (U := keras_utils.error) df_first_date seq_len)
      as [e | err] eqn:He; cbn [bind].
    2: { unfold add_days in He. cbv zeta in He.
         destruct (_ && _) in He; [discriminate | ]. injection He as <-.
         discriminate. }
    destruct (gtb e pred_date) eqn:Hg.
    + unfold keras_utils.InvalidPredictionDateError. rewrite He. cbn [bind].
      intros [= -> ->]. auto.
    + intros H. exfalso. revert H.
      destruct (weekend_snap_spec pred_date Hp) as (m & Hm & _). rewrite Hm.
      unfold keras_utils.InvalidPredictionDateError, sub_days.
      destruct (weekday df_last_date =? 4).
      * destruct (add_days_cases (U := keras_utils.error) df_last_date 3)
          as [[_ ->] | [_ ->]]; cbn [bind]; [ | discriminate].
        destruct (gtb pred_date _); cbn [bind]; [ | discriminate].
        destruct (add_days_cases (U := keras_utils.error) df_last_date 1)
          as [[_ ->] | [_ ->]]; cbn [bind]; discriminate.
      * destruct (add_days_cases (U := keras_utils.error) pred_date (- (1)))
          as [[_ ->] | [_ ->]]; cbn [bind]; [ | discriminate].
        destruct (ltb df_last_date _); cbn [bind]; [ | discriminate].
        destruct (add_days_cases (U := keras_utils.error) df_last_date 1)
          as [[_ ->] | [_ ->]]; cbn [bind]; discriminate.
  - intros Hfri Hnf.
    utils_cases pred_date df_last_date Hp Hl;
      try lia; try contradiction; eauto;
      exfalso; intuition lia.
  - intros w df1 df2 date H. unfold utils.get_prediction_date. rewrite H.
    reflexivity.
  - intros last. reflexivity.
Qed.

Lemma C4_lower_bound_witness :
  valid (mkdate 2024 1 8) /\
  keras_utils.get_correct_pred_date (mkdate 2024 1 8) (mkdate 2024 1 1)
    (mkdate 2024 1 5) 10
  = Raise (UserError (keras_utils.InvalidPredictionDateError_ (mkdate 2024 1 8)
             (mkdate 2024 1 1) 10 true (mkdate 2024 1 11))).
Proof.
  split; [reflexivity | ].
  apply (proj1 (C4_lower_bound (mkdate 2024 1 8) (mkdate 2024 1 1)
                  (mkdate 2024 1 5) 10 eq_refl eq_refl eq_refl));
    reflexivity.
Defined.

(** ** C5: the clock *)

(** Against C5: with no date given the resolvers read the clock
    themselves ([dt.datetime.now()]), and the same call gives Monday
    2024-01-08 when the clock shows 2024-01-08 and fails when it shows
    2024-01-09. *)
Lemma C5_outcome_depends_on_clock :
  let df := {| index := [mkdate 2023 1 2; mkdate 2024 1 5] |} in
  keras_utils.get_prediction_date {| now := mkdate 2024 1 8 |} df 60 None
  = Ok (mkdate 2024 1 8)
  /\ keras_utils.get_prediction_date {| now := mkdate 2024 1 9 |} df 60 None
     = Raise (UserError (keras_utils.InvalidPredictionDateError_
                (mkdate 2024 1 9) (mkdate 2024 1 5) 60 false (mkdate 2024 1 6)))
  /\ utils.get_prediction_date {| now := mkdate 2024 1 8 |} df None
     <> utils.get_prediction_date {| now := mkdate 2024 1 9 |} df None.
Proof. vm_compute. repeat split. discriminate. Qed.

(** C5, as it holds on the code.  Two calls with the same arguments give the same outcome
    when a date is given or when the clock shows the same day; with no date
    given the candidate is the day the clock shows.  On dates of the
    calendar [keras_utils.get_correct_pred_date] returns a date, or fails
    with its [InvalidPredictionDateError], or, at the ends of the calendar
    ([df_first_date + seq_len] is no date, the data ends on 9999-12-31, the
    candidate is 0001-01-01), with [OverflowError]. *)
Theorem C5_clock_dependence w1 w2 df seq_len date :
  date <> None \/ now w1 = now w2 ->
  keras_utils.get_prediction_date w1 df seq_len date
  = keras_utils.get_prediction_date w2 df seq_len date
  /\ utils.get_prediction_date w1 df date = utils.get_prediction_date w2 df date
  /\ keras_utils.get_prediction_date w1 df seq_len None
     = (df_first_date <- index_first df ;;
        df_last_date <- index_last df ;;
        keras_utils.get_correct_pred_date (now w1) df_first_date df_last_date
          seq_len)
  /\ utils.get_prediction_date w1 df None
     = (df_last_date <- index_last df ;;
        utils.get_correct_pred_date (now w1) df_last_date)
  /\ (forall pred_date df_first_date df_last_date,
        valid pred_date -> valid df_first_date -> valid df_last_date ->
        match keras_utils.get_correct_pred_date pred_date df_first_date
                df_last_date seq_len with
        | Ok r => valid r
        | Raise (UserError (keras_utils.InvalidPredictionDateError_ p d s _ _)) =>
            p = pred_date /\ s = seq_len
        | Raise OverflowError =>
            ~ 1 <= toordinal df_first_date + seq_len <= _MAXORDINAL
            \/ toordinal df_last_date = _MAXORDINAL
            \/ toordinal pred_date = 1
        | Raise _ => False
        end).
Proof.
  intros H. split; [ | split; [ | split; [ | split]]].
  - unfold keras_utils.get_prediction_date.
    destruct date as [s | ]; [reflexivity | ].
    destruct H as [H | H]; [congruence | rewrite H; reflexivity].
  - unfold utils.get_prediction_date.
    destruct date as [s | ]; [reflexivity | ].
    destruct H as [H | H]; [congruence | rewrite H; reflexivity].
  - reflexivity.
  - reflexivity.
  - intros pred_date df_first_date df_last_date Hp Hf Hl.
    destruct (weekend_snap_spec pred_date Hp) as (m & Hm & Hvm & _).
    keras_cases pred_date df_first_date df_last_date seq_len Hp Hf Hl; auto.
    + right. left. pose proof (toordinal_bounds _ Hl).
      destruct (Z.eq_dec (toordinal df_last_date) _MAXORDINAL); [assumption | ].
      pose proof (friday_not_last df_last_date Hl ltac:(assumption) ltac:(assumption)).
      lia.
    + rewrite Hm. exact Hvm.
Qed.

Lemma C5_clock_dependence_witness :
  keras_utils.get_prediction_date {| now := mkdate 2024 1 8 |}
    {| index := [mkdate 2023 1 2; mkdate 2024 1 5] |} 60 (Some "2024-01-06"%string)
  = keras_utils.get_prediction_date {| now := mkdate 2024 1 9 |}
      {| index := [mkdate 2023 1 2; mkdate 2024 1 5] |} 60 (Some "2024-01-06"%string).
Proof.
  apply (C5_clock_dependence {| now := mkdate 2024 1 8 |}
           {| now := mkdate 2024 1 9 |}).
  left. discriminate.
Defined.

(** ** C6: strings that are rejected *)

(** Against C6: ["2024-1-5"] and ["2024-01- 5"] are not in the
    format [YYYY-MM-DD], yet they are parsed, as 2024-01-05. *)
Lemma C6_loose_parse_accepted :
  keras_utils.get_date_from_string "2024-1-5" = Ok (mkdate 2024 1 5)
  /\ keras_utils.get_date_from_string "2024-01- 5" = Ok (mkdate 2024 1 5)
  /\ valid_iso_string "2024-1-5" = false
  /\ valid_iso_string "2024-01- 5" = false
  /\ isoformat (mkdate 2024 1 5) = "2024-01-05"%string.
Proof. vm_compute. repeat split. Qed.

(** C6, as it holds on the code.  [keras_utils.get_date_from_string]
    returns a date only for a string made of the four digits of the year, a
    dash, the month with two digits or (below 10) with one, a dash, and the
    day with two digits or (below 10) with one digit or a blank and one
    digit, and then the date is one of the calendar; on every other string
    it fails with [InvalidDateError] carrying the string.  So it fails on
    wrong separators, on a field that is not a number, on month 13, on day
    32, on a day the month does not have, and on text before or after the
    date. *)
Theorem C6_typed_error_on_rejection s :
  match keras_utils.get_date_from_string s with
  | Ok x =>
      valid x
      /\ exists ms ds,
           s = (format_0d 4 (year x) ++ "-" ++ ms ++ "-" ++ ds)%string
           /\ (ms = format_0d 2 (month x)
               \/ (month x <= 9 /\ ms = format_0d 1 (month x)))
           /\ (ds = format_0d 2 (day x)
               \/ (day x <= 9
                   /\ (ds = format_0d 1 (day x)
                       \/ ds = String " " (format_0d 1 (day x)))))
  | Raise e => e = UserError (keras_utils.InvalidDateError_ s)
  end
  /\ Forall (fun bad =>
               keras_utils.get_date_from_string bad
               = Raise (UserError (keras_utils.InvalidDateError_ bad)))
        ["2024/01/05"; "2024.01.05"; "20240105"; "2024-Jan-05"; "20x4-01-05";
         "2024-13-05"; "2024-00-05"; "2024-01-32"; "2024-01-00"; "2024-02-30";
         "2023-02-29"; "0000-01-01"; " 2024-01-05"; "x2024-01-05";
         "2024-01-05 "; "2024-01-05x"; "2024-01-051"; "24-01-05"; ""]%string.
Proof.
  split; [ | repeat constructor].
  unfold keras_utils.get_date_from_string, keras_utils.InvalidDateError, strptime.
  destruct (format_regex_match s) as [[[[Y m] d] rest] | ] eqn:Hm;
    [ | reflexivity].
  destruct (String.eqb_spec rest "") as [-> | Hrest]; cbn [negb];
    [ | reflexivity].
  unfold new_date. destruct (check_date_fields _ _ _) eqn:Hc; [ | reflexivity].
  split; [exact Hc | ]. cbn [year month day].
  apply format_regex_match_Some in Hm as (Hs & HY & HM & HD).
  apply re_Y_In in HY as (_ & _ & EY).
  apply re_m_In in HM as (_ & _ & EM).
  apply re_d_In in HD as (_ & _ & ED).
  exists m, d. rewrite <- EY. split; [ | auto].
  rewrite Hs. clear. induction Y as [ | c Y IH]; cbn; [ | f_equal; exact IH].
  f_equal. f_equal. f_equal. induction d; cbn; [reflexivity | f_equal; assumption].
Qed.

(** ** C7: the round trip *)

(** The ISO form of a date of the calendar is a string the specification
    calls valid. *)
Lemma isoformat_valid_iso_string x :
  valid x -> valid_iso_string (isoformat x) = true.
Proof.
  intros Hv. pose proof Hv as Hf. apply valid_fields in Hf.
  destruct Hf as (Hy & Hm & Hd).
  pose proof (days_in_month_pos (year x) (month x) Hm) as Hdim.
  unfold isoformat.
  rewrite format_0d_4, !format_0d_2 by lia.
  cbn [String.append valid_iso_string forallb].
  assert (Hdig : forall k, 0 <= k <= 9 ->
            in_range "0" "9" (digit_char k) = true
            /\ digit_value (digit_char k) = k).
  { intros k Hk.
    assert (C : In k (map Z.of_nat (seq 0 10))).
    { apply in_map_iff. exists (Z.to_nat k). split; [lia | apply in_seq; lia]. }
    cbv in C. enum_in C k; split; reflexivity. }
  assert (R1 : 0 <= year x / 1000 <= 9) by (Z.div_mod_to_equations; lia).
  assert (R2 : 0 <= year x / 100 mod 10 <= 9) by (Z.div_mod_to_equations; lia).
  assert (R3 : 0 <= year x / 10 mod 10 <= 9) by (Z.div_mod_to_equations; lia).
  assert (R4 : 0 <= year x mod 10 <= 9) by (Z.div_mod_to_equations; lia).
  assert (R5 : 0 <= month x / 10 <= 9) by (Z.div_mod_to_equations; lia).
  assert (R6 : 0 <= month x mod 10 <= 9) by (Z.div_mod_to_equations; lia).
  assert (R7 : 0 <= day x / 10 <= 9) by (Z.div_mod_to_equations; lia).
  assert (R8 : 0 <= day x mod 10 <= 9) by (Z.div_mod_to_equations; lia).
  destruct (Hdig _ R1) as [D1 V1]. destruct (Hdig _ R2) as [D2 V2].
  destruct (Hdig _ R3) as [D3 V3]. destruct (Hdig _ R4) as [D4 V4].
  destruct (Hdig _ R5) as [D5 V5]. destruct (Hdig _ R6) as [D6 V6].
  destruct (Hdig _ R7) as [D7 V7]. destruct (Hdig _ R8) as [D8 V8].
  rewrite D1, D2, D3, D4, D5, D6, D7, D8. cbn [andb Ascii.eqb Bool.eqb].
  unfold int. rewrite !lstrip_digit by assumption. cbn [int_digits].
  rewrite V1, V2, V3, V4, V5, V6, V7, V8.
  replace ((((0 * 10 + year x / 1000) * 10 + year x / 100 mod 10) * 10
            + year x / 10 mod 10) * 10 + year x mod 10) with (year x)
    by (Z.div_mod_to_equations; lia).
  replace ((0 * 10 + month x / 10) * 10 + month x mod 10) with (month x)
    by (Z.div_mod_to_equations; lia).
  replace ((0 * 10 + day x / 10) * 10 + day x mod 10) with (day x)
    by (Z.div_mod_to_equations; lia).
  exact Hv.
Qed.

(** C7.  On every valid [YYYY-MM-DD] string both [get_date_from_string]
    return the same date of the calendar, whose ISO form is the string. *)
Theorem C7_parse_roundtrip s :
  valid_iso_string s = true ->
  exists x,
    keras_utils.get_date_from_string s = Ok x
    /\ utils.get_date_from_string s = Ok x
    /\ valid x
    /\ isoformat x = s.
Proof.
  unfold valid_iso_string.
  destruct s as [ | y1 [ | y2 [ | y3 [ | y4 [ | s1 [ | m1 [ | m2 [ | s2
    [ | d1 [ | d2 [ | ? ?]]]]]]]]]]]; try discriminate.
  cbn [forallb]. rewrite !andb_true_iff, !Ascii.eqb_eq.
  intros [[[(Hy1 & Hy2 & Hy3 & Hy4 & Hm1 & Hm2 & Hd1 & Hd2 & _) ->] ->] Hc].
  destruct (int_two_digits m1 m2 Hm1 Hm2) as [Rm Em].
  destruct (int_two_digits d1 d2 Hd1 Hd2) as [Rd Ed].
  change (String y1 (String y2 (String y3 (String y4 (String "-"
            (String m1 (String m2 (String "-" (String d1 (String d2 ""))))))))))
    with (String y1 (String y2 (String y3 (String y4 ""))) ++ "-"
          ++ String m1 (String m2 "") ++ "-" ++ String d1 (String d2 ""))%string.
  set (Y := String y1 (String y2 (String y3 (String y4 "")))) in *.
  assert (HY : 0 <= int Y <= 9999 /\ Y = format_0d 4 (int Y)).
  { assert (HIn : In (Y, ""%string) (re_Y Y)).
    { unfold re_Y, re_seq, re_digit, re_rng, re_class, Y.
      rewrite Hy1. cbn [flat_map map app]. rewrite Hy2. cbn [flat_map map app].
      rewrite Hy3. cbn [flat_map map app]. rewrite Hy4. cbn. auto. }
    apply re_Y_In in HIn. tauto. }
  destruct HY as [RY EY].
  set (M := String m1 (String m2 "")) in *.
  set (D := String d1 (String d2 "")) in *.
  pose proof Hc as Hv. unfold check_date_fields in Hv.
  rewrite !andb_true_iff, !Z.leb_le in Hv.
  destruct Hv as [[[[[Hv1 Hv2] Hv3] Hv4] Hv5] Hv6].
  pose proof (days_in_month_pos (int Y) (int M) ltac:(lia)) as Hdim.
  assert (Hmatch :
    format_regex_match (Y ++ "-" ++ M ++ "-" ++ D)
    = Some (Y, M, D, ""%string)).
  { rewrite Em, Ed. unfold Y. cbn [String.append].
    apply format_regex_match_exact; auto; lia. }
  assert (Hs : strptime (U := keras_utils.error) (Y ++ "-" ++ M ++ "-" ++ D)
               = Ok (mkdate (int Y) (int M) (int D))).
  { unfold strptime. rewrite Hmatch. cbn [String.eqb negb].
    unfold new_date. rewrite Hc. reflexivity. }
  exists (mkdate (int Y) (int M) (int D)).
  split; [ | split; [ | split]].
  - unfold keras_utils.get_date_from_string. rewrite Hs. reflexivity.
  - unfold utils.get_date_from_string, strptime. rewrite Hmatch.
    cbn [String.eqb negb]. unfold new_date. rewrite Hc. reflexivity.
  - exact Hc.
  - unfold isoformat. cbn [year month day]. rewrite <- EY, <- Em, <- Ed.
    reflexivity.
Qed.

Lemma C7_parse_roundtrip_witness :
  exists x,
    keras_utils.get_date_from_string "2024-02-29" = Ok x
    /\ utils.get_date_from_string "2024-02-29" = Ok x
    /\ valid x
    /\ isoformat x = "2024-02-29"%string.
Proof. exact (C7_parse_roundtrip "2024-02-29" eq_refl). Defined.

(** ** C8: the snap is idempotent *)

(** Against C8 on [utils/utils.py]: with the data ending on
    Thursday 2024-01-11 it resolves Sunday 2024-01-07 to itself, a date the
    snap would still move. *)
Lemma C8_utils_returns_sunday :
  let pred_date := mkdate 2024 1 7 in
  let df_last_date := mkdate 2024 1 11 in
  valid pred_date /\ valid df_last_date /\
  utils.get_correct_pred_date pred_date df_last_date = Ok pred_date /\
  weekday pred_date = 6 /\
  keras_utils.weekend_snap pred_date = Ok (mkdate 2024 1 8).
Proof. vm_compute. repeat split. Qed.

(** C8, as it holds on the code.  The snap of [keras_utils] keeps a weekday and always
    returns a weekday, so snapping its result changes nothing; a successful
    resolution of [keras_utils] returns the snap of the candidate, applied
    once, hence a weekday.  A successful resolution of [utils] returns a
    weekday when the candidate is a weekday or is the Saturday or Sunday
    right after a last date that is a Friday; any candidate that is not
    right after such a Friday is returned unchanged, weekend or not. *)
Theorem C8_snap_idempotent pred_date df_first_date df_last_date seq_len :
  valid pred_date -> valid df_last_date ->
  (0 <= weekday pred_date <= 4 ->
   keras_utils.weekend_snap pred_date = Ok pred_date)
  /\ (forall m,
        keras_utils.weekend_snap pred_date = Ok m ->
        0 <= weekday m <= 4 /\ keras_utils.weekend_snap m = Ok m)
  /\ (forall r,
        keras_utils.get_correct_pred_date pred_date df_first_date df_last_date
          seq_len = Ok r ->
        keras_utils.weekend_snap pred_date = Ok r
        /\ 0 <= weekday r <= 4
        /\ keras_utils.weekend_snap r = Ok r)
  /\ (forall r,
        utils.get_correct_pred_date pred_date df_last_date = Ok r ->
        (0 <= weekday pred_date <= 4
         \/ (weekday df_last_date = 4
             /\ toordinal df_last_date < toordinal pred_date
                <= toordinal df_last_date + 2)
         -> 0 <= weekday r <= 4 /\ keras_utils.weekend_snap r = Ok r)
        /\ (~ (weekday df_last_date = 4
               /\ toordinal df_last_date < toordinal pred_date
                  <= toordinal df_last_date + 2)
            -> r = pred_date)).
Proof.
  intros Hp Hl.
  assert (Hweekday : forall x, 0 <= weekday x <= 4 ->
            keras_utils.weekend_snap x = Ok x).
  { intros x Hx. unfold keras_utils.weekend_snap.
    destruct (Z.eqb_spec (weekday x) 5); [lia | ].
    destruct (Z.eqb_spec (weekday x) 6); [lia | ]. reflexivity. }
  assert (Hidem : forall m, keras_utils.weekend_snap pred_date = Ok m ->
            0 <= weekday m <= 4 /\ keras_utils.weekend_snap m = Ok m).
  { intros m Hm.
    destruct (weekend_snap_weekday _ _ Hp Hm) as (_ & Hw & _). auto. }
  split; [auto | split; [exact Hidem | split]].
  - intros r Hr. apply keras_get_correct_pred_date_Ok in Hr.
    destruct (Hidem r Hr). auto.
  - intros r Hr.
    pose proof (utils_get_correct_pred_date_Ok pred_date df_last_date r Hp Hl Hr)
      as Hu.
    revert Hu.
    destruct (Z.eqb_spec (weekday df_last_date) 4) as [Hfri | Hfri];
      destruct (Z.eqb_spec (toordinal pred_date) (toordinal df_last_date + 1));
      destruct (Z.eqb_spec (toordinal pred_date) (toordinal df_last_date + 2));
      cbn [andb]; try lia.
    all: try (intros (Hw1 & Ho & Hw2); split;
              [intros _; split; [lia | apply Hweekday; lia]
              | intros Hn; exfalso; apply Hn; split; [assumption | lia]]).
    all: intros ->; split; [ | reflexivity].
    all: intros [Hw | (Hf & Ho)]; try lia; try contradiction; auto.
Qed.

Lemma C8_snap_idempotent_witness :
  valid (mkdate 2024 1 6) /\
  forall r,
    keras_utils.get_correct_pred_date (mkdate 2024 1 6) (mkdate 2023 1 2)
      (mkdate 2024 1 5) 60 = Ok r ->
    0 <= weekday r <= 4.
Proof.
  split; [reflexivity | ].
  intros r Hr.
  apply (proj1 (proj2 (proj2 (C8_snap_idempotent (mkdate 2024 1 6)
           (mkdate 2023 1 2) (mkdate 2024 1 5) 60 eq_refl eq_refl))) r Hr).
Defined.

(** ** C9: the two resolvers disagree *)

(** C9.  There are a candidate and a last date, with the lower-bound check
    of [keras_utils] passing, on which the two resolvers succeed with
    different dates: Saturday 2024-01-06 against data ending on Wednesday
    2024-01-10 is resolved to Monday 2024-01-08 by [keras_utils] and to
    itself by [utils]. *)
Theorem C9_implementations_disagree :
  exists pred_date df_first_date df_last_date seq_len,
    valid pred_date /\ valid df_first_date /\ valid df_last_date
    /\ (exists earliest,
          add_days (U := keras_utils.error) df_first_date seq_len = Ok earliest
          /\ gtb earliest pred_date = false)
    /\ exists r1 r2,
         keras_utils.get_correct_pred_date pred_date df_first_date df_last_date
           seq_len = Ok r1
         /\ utils.get_correct_pred_date pred_date df_last_date = Ok r2
         /\ r1 <> r2.
Proof.
  exists (mkdate 2024 1 6), (mkdate 2023 1 2), (mkdate 2024 1 10), 60.
  split; [reflexivity | split; [reflexivity | split; [reflexivity | split]]].
  - exists (mkdate 2023 3 3). split; reflexivity.
  - exists (mkdate 2024 1 8), (mkdate 2024 1 6).
    split; [reflexivity | split; [reflexivity | discriminate]].
Qed.

(** ** C10: the notice of [KerasModel.predict] *)

Lemma strptime_Ok_any {U V} s x :
  strptime (U := U) s = Ok x -> strptime (U := V) s = Ok x.
Proof.
  unfold strptime, new_date.
  destruct (format_regex_match s) as [[[[Y m] d] rest] | ]; [ | discriminate].
  destruct (negb _); [discriminate | ].
  destruct (check_date_fields _ _ _); [ | discriminate].
  intros [= <-]. reflexivity.
Qed.

Lemma index_last_valid {U} df l :
  Forall valid (index df) -> index_last (U := U) df = Ok l -> valid l.
Proof.
  unfold index_last. intros Hdf.
  destruct (rev (index df)) as [ | x t] eqn:E; [discriminate | ].
  intros [= <-]. rewrite Forall_forall in Hdf. apply Hdf, in_rev.
  rewrite E. left. reflexivity.
Qed.

(** C10.  Let [self._predict] return the date a successful resolution
    gives for the date requested (the resolution of
    [model/keras_models/utils.py], or that of [utils/utils.py] on data made
    of dates of the calendar).  Then [predict] prints its notice exactly
    when that date differs from the date requested; the date requested is
    then a Saturday or a Sunday and the resolved date is the Monday that
    follows it, at most 2 days later. *)
Theorem C10_notice_names_monday {Y P : Type}
    (_predict : option string -> result P (Y * date))
    w df seq_len s y pred_date :
  _predict (Some s) = Ok (y, pred_date) ->
  keras_utils.get_prediction_date w df seq_len (Some s) = Ok pred_date
  \/ (Forall valid (index df)
      /\ utils.get_prediction_date w df (Some s) = Ok pred_date) ->
  exists date,
    utils.get_date_from_string s = Ok date
    /\ (pred_date = date ->
        keras_model.predict _predict (Some s) = Ok (y, pred_date, []))
    /\ (pred_date <> date ->
        keras_model.predict _predict (Some s)
        = Ok (y, pred_date, [keras_model.notice date pred_date])
        /\ (weekday date = 5 \/ weekday date = 6)
        /\ weekday pred_date = 0
        /\ toordinal date < toordinal pred_date <= toordinal date + 2).
Proof.
  intros Hself Hres.
  assert (Hkey : exists date,
            utils.get_date_from_string s = Ok date /\ valid date
            /\ (pred_date <> date ->
                (weekday date = 5 \/ weekday date = 6)
                /\ weekday pred_date = 0
                /\ toordinal date < toordinal pred_date <= toordinal date + 2)).
  { destruct Hres as [Hk | [Hdf Hu]].
    - unfold keras_utils.get_prediction_date in Hk.
      apply bind_Ok in Hk as (d & Hd & Hk).
      apply bind_Ok in Hk as (f & _ & Hk). apply bind_Ok in Hk as (l & _ & Hk).
      apply keras_get_correct_pred_date_Ok in Hk.
      apply keras_get_date_from_string_Ok in Hd.
      pose proof (strptime_valid _ _ Hd) as Hv.
      exists d. split; [exact (strptime_Ok_any _ _ Hd) | split; [exact Hv | ]].
      destruct (weekend_snap_weekday _ _ Hv Hk) as (Hvp & Hw & Hrange & _ & Hdiff).
      intros Hne. destruct (Hdiff Hne) as [Hwe Hmon].
      split; [exact Hwe | split; [exact Hmon | ]]. split; [ | lia].
      destruct (Z.eq_dec (toordinal pred_date) (toordinal d)) as [E | E]; [ | lia].
      exfalso. apply Hne. apply toordinal_inj; auto.
    - unfold utils.get_prediction_date in Hu.
      apply bind_Ok in Hu as (d & Hd & Hu). apply bind_Ok in Hu as (l & Hl & Hu).
      pose proof (strptime_valid _ _ Hd) as Hv.
      pose proof (index_last_valid _ _ Hdf Hl) as Hvl.
      exists d. split; [exact Hd | split; [exact Hv | ]].
      pose proof (utils_get_correct_pred_date_Ok _ _ _ Hv Hvl Hu) as Hcase.
      intros Hne. revert Hcase.
      destruct ((weekday l =? 4) && (toordinal d =? toordinal l + 1));
        [intros (H5 & Ho & H0); repeat split; auto; lia | ].
      destruct ((weekday l =? 4) && (toordinal d =? toordinal l + 2));
        [intros (H6 & Ho & H0); repeat split; auto; lia | ].
      intros E. contradiction. }
  destruct Hkey as (d & Hd & Hv & Hdiff).
  exists d. split; [exact Hd | ].
  unfold keras_model.predict. rewrite Hself, Hd.
  split.
  - intros ->. rewrite (proj2 (eqb_eq d d) eq_refl). reflexivity.
  - intros Hne.
    destruct (eqb pred_date d) eqn:Heq.
    + apply eqb_eq in Heq. contradiction.
    + split; [reflexivity | exact (Hdiff Hne)].
Qed.

Lemma C10_notice_names_monday_witness :
  exists date,
    utils.get_date_from_string "2024-01-06" = Ok date
    /\ (mkdate 2024 1 8 = date ->
        keras_model.predict (P := unit) (fun _ => Ok (tt, mkdate 2024 1 8))
          (Some "2024-01-06"%string)
        = Ok (tt, mkdate 2024 1 8, []))
    /\ (mkdate 2024 1 8 <> date ->
        keras_model.predict (P := unit) (fun _ => Ok (tt, mkdate 2024 1 8))
          (Some "2024-01-06"%string)
        = Ok (tt, mkdate 2024 1 8,
              [keras_model.notice date (mkdate 2024 1 8)])
        /\ (weekday date = 5 \/ weekday date = 6)
        /\ weekday (mkdate 2024 1 8) = 0
        /\ toordinal date < toordinal (mkdate 2024 1 8) <= toordinal date + 2).
Proof.
  apply (C10_notice_names_monday (P := unit)
           (fun _ => Ok (tt, mkdate 2024 1 8))
           {| now := mkdate 2024 1 1 |}
           {| index := [mkdate 2023 1 2; mkdate 2024 1 5] |} 60
           "2024-01-06" tt (mkdate 2024 1 8) eq_refl).
  left. reflexivity.
Defined.

(** * Further properties of the code *)

(** ** The two resolvers *)

Lemma toordinal_min x : valid x -> (toordinal x = 1 <-> x = mkdate 1 1 1).
Proof.
  intros Hv. split.
  - intros H. apply toordinal_inj; [assumption | reflexivity | exact H].
  - intros ->. reflexivity.
Qed.

Lemma toordinal_max x :
  valid x -> (toordinal x = _MAXORDINAL <-> x = mkdate 9999 12 31).
Proof.
  intros Hv. split.
  - intros H. apply toordinal_inj; [assumption | reflexivity | exact H].
  - intros ->. reflexivity.
Qed.

(** X1.  Once its lower-bound check has passed, the resolver of
    [keras_utils] does what the resolver of [utils] does and then snaps the
    result: where [utils] returns a date, [keras_utils] returns the snap of
    that date; where [utils] fails, [keras_utils] fails with the same kind
    of error, naming the same dates. *)
Theorem keras_is_utils_then_snap pred_date df_first_date df_last_date seq_len :
  valid pred_date -> valid df_first_date -> valid df_last_date ->
  (exists earliest,
     add_days (U := keras_utils.error) df_first_date seq_len = Ok earliest
     /\ gtb earliest pred_date = false) ->
  match utils.get_correct_pred_date pred_date df_last_date with
  | Ok r =>
      keras_utils.get_correct_pred_date pred_date df_first_date df_last_date
        seq_len = keras_utils.weekend_snap r
  | Raise (UserError (utils.InvalidPredictionDateError_ p l till)) =>
      keras_utils.get_correct_pred_date pred_date df_first_date df_last_date
        seq_len
      = Raise (UserError (keras_utils.InvalidPredictionDateError_ p l seq_len
                            false till))
  | Raise OverflowError =>
      keras_utils.get_correct_pred_date pred_date df_first_date df_last_date
        seq_len = Raise OverflowError
  | Raise _ => False
  end.
Proof.
  intros Hp Hf Hl Hlow. apply (lower_bound_passes _ _ _ Hp Hf) in Hlow.
  pose proof (toordinal_bounds _ Hp) as Bp.
  pose proof (toordinal_bounds _ Hl) as Bl.
  destruct (weekend_snap_spec pred_date Hp) as (m & Hm & Hvm & Hom).
  utils_cases pred_date df_last_date Hp Hl;
    keras_cases pred_date df_first_date df_last_date seq_len Hp Hf Hl;
    try reflexivity; try (exfalso; lia); try contradiction;
    try (exfalso; intuition lia).
  - (* Saturday after a Friday *)
    assert (Hw : weekday pred_date = 5).
    { rewrite (weekday_add df_last_date pred_date 1), H; [reflexivity | lia]. }
    rewrite Hm. rewrite Hw in Hom. cbn in Hom.
    assert (Ho : toordinal (fromordinal (toordinal pred_date + 2))
                 = toordinal pred_date + 2)
      by (apply toordinal_fromordinal; lia).
    assert (E : fromordinal (toordinal pred_date + 2) = m).
    { apply toordinal_inj; auto. apply fromordinal_valid; lia. lia. }
    rewrite E. symmetry.
    unfold keras_utils.weekend_snap.
    rewrite (weekday_add pred_date m 2 Hom), Hw. reflexivity.
  - assert (Hw : weekday pred_date = 6).
    { rewrite (weekday_add df_last_date pred_date 2), H; [reflexivity | lia]. }
    rewrite Hm. rewrite Hw in Hom. cbn in Hom.
    assert (E : fromordinal (toordinal pred_date + 1) = m).
    { apply toordinal_inj; auto. apply fromordinal_valid; lia.
      rewrite toordinal_fromordinal by lia. lia. }
    rewrite E. symmetry.
    unfold keras_utils.weekend_snap.
    rewrite (weekday_add pred_date m 1 Hom), Hw. reflexivity.
Qed.

Lemma keras_is_utils_then_snap_witness :
  match utils.get_correct_pred_date (mkdate 2024 1 6) (mkdate 2024 1 10) with
  | Ok r =>
      keras_utils.get_correct_pred_date (mkdate 2024 1 6) (mkdate 2023 1 2)
        (mkdate 2024 1 10) 60 = keras_utils.weekend_snap r
  | Raise (UserError (utils.InvalidPredictionDateError_ p l till)) =>
      keras_utils.get_correct_pred_date (mkdate 2024 1 6) (mkdate 2023 1 2)
        (mkdate 2024 1 10) 60
      = Raise (UserError (keras_utils.InvalidPredictionDateError_ p l 60
                            false till))
  | Raise OverflowError =>
      keras_utils.get_correct_pred_date (mkdate 2024 1 6) (mkdate 2023 1 2)
        (mkdate 2024 1 10) 60 = Raise OverflowError
  | Raise _ => False
  end.
Proof.
  apply (keras_is_utils_then_snap (mkdate 2024 1 6) (mkdate 2023 1 2)
           (mkdate 2024 1 10) 60 eq_refl eq_refl eq_refl).
  exists (mkdate 2023 3 3). split; reflexivity.
Defined.

(** X2.  A date returned by either resolver is a date of the calendar, not
    earlier than the candidate and at most 2 days after it. *)
Theorem resolved_date_window pred_date df_first_date df_last_date seq_len :
  valid pred_date -> valid df_last_date ->
  (forall r,
     keras_utils.get_correct_pred_date pred_date df_first_date df_last_date
       seq_len = Ok r ->
     valid r /\ toordinal pred_date <= toordinal r <= toordinal pred_date + 2)
  /\ (forall r,
        utils.get_correct_pred_date pred_date df_last_date = Ok r ->
        valid r /\ toordinal pred_date <= toordinal r <= toordinal pred_date + 2).
Proof.
  intros Hp Hl. split; intros r Hr.
  - apply keras_get_correct_pred_date_Ok in Hr.
    destruct (weekend_snap_weekday _ _ Hp Hr) as (Hv & _ & Hrange & _). auto.
  - pose proof (toordinal_bounds _ Hp) as Bp.
    pose proof (toordinal_bounds _ Hl) as Bl.
    revert Hr. utils_cases pred_date df_last_date Hp Hl;
      try discriminate; intros [= <-];
      try (split; [assumption | lia]);
      (split; [apply fromordinal_valid; lia
              | rewrite toordinal_fromordinal by lia; lia]).
Qed.

Lemma resolved_date_window_witness :
  valid (mkdate 2024 1 6) /\
  forall r,
    keras_utils.get_correct_pred_date (mkdate 2024 1 6) (mkdate 2023 1 2)
      (mkdate 2024 1 5) 60 = Ok r ->
    valid r
    /\ toordinal (mkdate 2024 1 6) <= toordinal r <= toordinal (mkdate 2024 1 6) + 2.
Proof.
  split; [reflexivity | ].
  exact (proj1 (resolved_date_window (mkdate 2024 1 6) (mkdate 2023 1 2)
                  (mkdate 2024 1 5) 60 eq_refl eq_refl)).
Defined.

(** X3.  Neither resolver returns a date beyond the first day of trading
    after the data: [keras_utils] returns at most the last date plus 3 days
    when that is a Friday, plus 2 when a Saturday, plus 1 otherwise; [utils]
    at most the last date plus 3 days when that is a Friday, plus 1
    otherwise. *)
Theorem resolved_date_not_beyond_next_trading_day
    pred_date df_first_date df_last_date seq_len :
  valid pred_date -> valid df_first_date -> valid df_last_date ->
  (forall r,
     keras_utils.get_correct_pred_date pred_date df_first_date df_last_date
       seq_len = Ok r ->
     toordinal r
     <= toordinal df_last_date
        + (if weekday df_last_date =? 4 then 3
           else if weekday df_last_date =? 5 then 2 else 1))
  /\ (forall r,
        utils.get_correct_pred_date pred_date df_last_date = Ok r ->
        toordinal r
        <= toordinal df_last_date + (if weekday df_last_date =? 4 then 3 else 1)).
Proof.
  intros Hp Hf Hl.
  pose proof (toordinal_bounds _ Hp) as Bp.
  pose proof (toordinal_bounds _ Hl) as Bl.
  pose proof (weekday_range df_last_date) as Rl.
  split; intros r Hr.
  - pose proof (keras_get_correct_pred_date_Ok _ _ _ _ _ Hr) as Hs.
    destruct (weekend_snap_spec pred_date Hp) as (m & Hm & Hvm & Hom).
    assert (m = r) by congruence. subst m.
    revert Hr.
    keras_cases pred_date df_first_date df_last_date seq_len Hp Hf Hl;
      try discriminate. intros _.
    unfold weekday in *.
    destruct (Z.eqb_spec ((toordinal df_last_date + 6) mod 7) 4);
      destruct (Z.eqb_spec ((toordinal df_last_date + 6) mod 7) 5);
      destruct (Z.eqb_spec ((toordinal pred_date + 6) mod 7) 5);
      destruct (Z.eqb_spec ((toordinal pred_date + 6) mod 7) 6);
      try lia;
      repeat match goal with
        | H : ?A -> _, H' : ?A |- _ => specialize (H H')
        end;
      Z.div_mod_to_equations; lia.
  - revert Hr. utils_cases pred_date df_last_date Hp Hl;
      try discriminate; intros [= <-];
      rewrite ?toordinal_fromordinal by lia;
      destruct (Z.eqb_spec (weekday df_last_date) 4); try contradiction; lia.
Qed.

Lemma resolved_date_not_beyond_next_trading_day_witness :
  valid (mkdate 2024 1 7) /\
  forall r,
    keras_utils.get_correct_pred_date (mkdate 2024 1 7) (mkdate 2023 1 2)
      (mkdate 2024 1 5) 60 = Ok r ->
    toordinal r <= toordinal (mkdate 2024 1 5) + 3.
Proof.
  split; [reflexivity | ].
  exact (proj1 (resolved_date_not_beyond_next_trading_day (mkdate 2024 1 7)
                  (mkdate 2023 1 2) (mkdate 2024 1 5) 60 eq_refl eq_refl eq_refl)).
Defined.

(** X4.  When the data ends on a weekday (Monday to Friday) and the
    candidate is after it, a successful resolution, by either resolver,
    returns the next weekday after the last date: the Monday 3 days after a
    Friday, the next day otherwise. *)
Theorem future_candidate_resolves_to_next_trading_day
    pred_date df_first_date df_last_date seq_len :
  valid pred_date -> valid df_first_date -> valid df_last_date ->
  0 <= weekday df_last_date <= 4 ->
  toordinal df_last_date < toordinal pred_date ->
  (forall r,
     keras_utils.get_correct_pred_date pred_date df_first_date df_last_date
       seq_len = Ok r ->
     toordinal r
     = toordinal df_last_date + (if weekday df_last_date =? 4 then 3 else 1)
     /\ 0 <= weekday r <= 4)
  /\ (forall r,
        utils.get_correct_pred_date pred_date df_last_date = Ok r ->
        toordinal r
        = toordinal df_last_date + (if weekday df_last_date =? 4 then 3 else 1)
        /\ 0 <= weekday r <= 4).
Proof.
  intros Hp Hf Hl Hwl Hafter.
  pose proof (toordinal_bounds _ Hp) as Bp.
  pose proof (toordinal_bounds _ Hl) as Bl.
  assert (Hkey : forall r,
            utils.get_correct_pred_date pred_date df_last_date = Ok r ->
            toordinal r
            = toordinal df_last_date
              + (if weekday df_last_date =? 4 then 3 else 1)
            /\ 0 <= weekday r <= 4).
  { intros r. utils_cases pred_date df_last_date Hp Hl;
      try discriminate; intros [= <-];
      rewrite ?toordinal_fromordinal by lia;
      destruct (Z.eqb_spec (weekday df_last_date) 4); try contradiction;
      try lia.
    - split; [lia | ].
      rewrite (weekday_add df_last_date (fromordinal (toordinal pred_date + 2)) 3)
        by (rewrite toordinal_fromordinal by lia; lia).
      rewrite e. cbn. lia.
    - split; [lia | ].
      rewrite (weekday_add df_last_date (fromordinal (toordinal pred_date + 1)) 3)
        by (rewrite toordinal_fromordinal by lia; lia).
      rewrite e. cbn. lia.
    - split; [lia | ].
      rewrite (weekday_add df_last_date pred_date 3) by lia.
      rewrite e. cbn. lia.
    - split; [lia | ].
      rewrite (weekday_add df_last_date pred_date 1) by lia.
      unfold weekday in *. Z.div_mod_to_equations. lia. }
  split; [ | exact Hkey].
  intros r Hr.
  pose proof (keras_get_correct_pred_date_Ok _ _ _ _ _ Hr) as Hs.
  destruct (weekend_snap_spec pred_date Hp) as (m & Hm & Hvm & Hom).
  assert (m = r) by congruence. subst m.
  pose proof (weekday_add _ _ _ Hom) as Hwr.
  revert Hr.
  keras_cases pred_date df_first_date df_last_date seq_len Hp Hf Hl;
    try discriminate. intros _.
  rewrite Hwr. unfold weekday in *.
  destruct (Z.eqb_spec ((toordinal df_last_date + 6) mod 7) 4);
    destruct (Z.eqb_spec ((toordinal pred_date + 6) mod 7) 5);
    destruct (Z.eqb_spec ((toordinal pred_date + 6) mod 7) 6);
    try lia;
    repeat match goal with
      | H : ?A -> _, H' : ?A |- _ => specialize (H H')
      end;
    Z.div_mod_to_equations; lia.
Qed.

Lemma future_candidate_resolves_to_next_trading_day_witness :
  weekday (mkdate 2024 1 5) = 4 /\
  forall r,
    utils.get_correct_pred_date (mkdate 2024 1 7) (mkdate 2024 1 5) = Ok r ->
    toordinal r = toordinal (mkdate 2024 1 5) + 3 /\ 0 <= weekday r <= 4.
Proof.
  split; [reflexivity | ].
  refine (proj2 (future_candidate_resolves_to_next_trading_day (mkdate 2024 1 7)
                   (mkdate 2023 1 2) (mkdate 2024 1 5) 60 eq_refl eq_refl eq_refl
                   _ _)); vm_compute; [split; discriminate | reflexivity].
Defined.

(** X5.  [utils.get_correct_pred_date] raises [OverflowError] exactly when
    the data ends on 9999-12-31, or ends on a day other than a Friday and
    the candidate is 0001-01-01; it raises no other built-in exception. *)
Theorem utils_overflow_iff pred_date df_last_date :
  valid pred_date -> valid df_last_date ->
  (utils.get_correct_pred_date pred_date df_last_date = Raise OverflowError
   <-> df_last_date = mkdate 9999 12 31
       \/ (weekday df_last_date <> 4 /\ pred_date = mkdate 1 1 1))
  /\ utils.get_correct_pred_date pred_date df_last_date <> Raise ValueError
  /\ utils.get_correct_pred_date pred_date df_last_date <> Raise IndexError.
Proof.
  intros Hp Hl.
  pose proof (toordinal_bounds _ Hp) as Bp.
  pose proof (toordinal_bounds _ Hl) as Bl.
  pose proof (toordinal_min _ Hp) as Hmin.
  pose proof (toordinal_max _ Hl) as Hmax.
  assert (Hmaxfri : toordinal df_last_date = _MAXORDINAL -> weekday df_last_date = 4).
  { intros E. unfold weekday. rewrite E. reflexivity. }
  destruct (utils_get_correct_pred_date_cases pred_date df_last_date Hp Hl)
    as [(Hfri & [(H & E) | (H7 & [(H & E) | [(H & E) | [(H & E) | (H & E)]]])])
       | (Hfri & [(H & E) | [(H & E) | (H & E)]])];
    cbv zeta in E; rewrite E; clear E;
    (split; [split | split; discriminate]); try discriminate.
  - intros _. left. apply Hmax. exact H.
  - reflexivity.
  - intros [Hm | [Hw Hm]]; [apply Hmax in Hm; lia | contradiction].
  - intros [Hm | [Hw Hm]]; [apply Hmax in Hm; lia | contradiction].
  - intros [Hm | [Hw Hm]]; [apply Hmax in Hm; lia | contradiction].
  - intros [Hm | [Hw Hm]]; [apply Hmax in Hm; lia | contradiction].
  - intros _. right. split; [assumption | apply Hmin; exact H].
  - reflexivity.
  - intros [Hm | [Hw Hm]]; [apply Hmax in Hm; destruct (Hfri (Hmaxfri Hm)) | apply Hmin in Hm; lia].
  - intros [Hm | [Hw Hm]]; [apply Hmax in Hm; destruct (Hfri (Hmaxfri Hm)) | apply Hmin in Hm; lia].
Qed.

Lemma utils_overflow_iff_witness :
  utils.get_correct_pred_date (mkdate 2024 1 5) (mkdate 9999 12 31)
  = Raise OverflowError
  <-> mkdate 9999 12 31 = mkdate 9999 12 31
      \/ (weekday (mkdate 9999 12 31) <> 4 /\ mkdate 2024 1 5 = mkdate 1 1 1).
Proof.
  exact (proj1 (utils_overflow_iff (mkdate 2024 1 5) (mkdate 9999 12 31)
                  eq_refl eq_refl)).
Defined.

(** X6.  [keras_utils.get_correct_pred_date] raises [OverflowError] exactly
    when [df_first_date + seq_len] is no date of the calendar, or the
    lower-bound check passes and the data ends on 9999-12-31 or ends on a
    day other than a Friday with candidate 0001-01-01; it raises no other
    built-in exception and no [InvalidDateError]. *)
Theorem keras_overflow_iff pred_date df_first_date df_last_date seq_len :
  valid pred_date -> valid df_first_date -> valid df_last_date ->
  (keras_utils.get_correct_pred_date pred_date df_first_date df_last_date
     seq_len = Raise OverflowError
   <-> ~ 1 <= toordinal df_first_date + seq_len <= _MAXORDINAL
       \/ (toordinal df_first_date + seq_len <= toordinal pred_date
           /\ (df_last_date = mkdate 9999 12 31
               \/ (weekday df_last_date <> 4 /\ pred_date = mkdate 1 1 1))))
  /\ keras_utils.get_correct_pred_date pred_date df_first_date df_last_date
       seq_len <> Raise ValueError
  /\ keras_utils.get_correct_pred_date pred_date df_first_date df_last_date
       seq_len <> Raise IndexError
  /\ (forall s,
        keras_utils.get_correct_pred_date pred_date df_first_date df_last_date
          seq_len <> Raise (UserError (keras_utils.InvalidDateError_ s))).
Proof.
  intros Hp Hf Hl.
  pose proof (toordinal_bounds _ Hp) as Bp.
  pose proof (toordinal_bounds _ Hl) as Bl.
  pose proof (toordinal_min _ Hp) as Hmin.
  pose proof (toordinal_max _ Hl) as Hmax.
  assert (Hmaxfri : toordinal df_last_date = _MAXORDINAL -> weekday df_last_date = 4).
  { intros E. unfold weekday. rewrite E. reflexivity. }
  destruct (weekend_snap_spec pred_date Hp) as (m & Hm & _).
  destruct (keras_get_correct_pred_date_cases pred_date df_first_date
              df_last_date seq_len Hp Hf Hl)
    as [[H E] | [(Hr & H & E) | (Hlow & [(Hfri & H & E) | [(Hfri & H & E)
       | [(Hfri & H & E) | [(Hfri & H & E) | (Hfri & Hnf & E)]]]])]];
    cbv zeta in E; rewrite E; clear E; rewrite ?Hm;
    (split; [split | split; [ | split; [ | intros s]]; discriminate]);
    try discriminate.
  - intros _. left. exact H.
  - reflexivity.
  - intros [Hc | [Hc _]]; [contradiction | lia].
  - intros _. right. split; [lia | left]. apply Hmax.
    destruct (Z.eq_dec (toordinal df_last_date) _MAXORDINAL); [assumption | ].
    pose proof (friday_not_last df_last_date Hl Hfri n). lia.
  - reflexivity.
  - intros [Hc | (_ & [Hc | [Hw Hc]])]; [lia | | contradiction].
    apply Hmax in Hc. lia.
  - intros _. right. split; [lia | right]. split; [assumption | ].
    apply Hmin. exact H.
  - reflexivity.
  - intros [Hc | (_ & [Hc | [Hw Hc]])];
      [lia | apply Hmax in Hc; destruct (Hfri (Hmaxfri Hc)) | apply Hmin in Hc; lia].
  - intros [Hc | (_ & [Hc | [Hw Hc]])]; [lia | | ].
    + apply Hmax in Hc. specialize (Hfri (Hmaxfri Hc)). lia.
    + apply Hmin in Hc. specialize (Hnf Hw). lia.
Qed.

Lemma keras_overflow_iff_witness :
  keras_utils.get_correct_pred_date (mkdate 2024 1 5) (mkdate 9999 12 1)
    (mkdate 2024 1 4) 60 = Raise OverflowError.
Proof.
  apply (proj1 (keras_overflow_iff (mkdate 2024 1 5) (mkdate 9999 12 1)
                  (mkdate 2024 1 4) 60 eq_refl eq_refl eq_refl)).
  left. vm_compute. intros [_ H]. apply H. reflexivity.
Defined.

(** X7.  When [df_first_date + seq_len] is later than the last date the
    upper bound allows (the last date plus 3 days after a Friday, plus 1
    otherwise), [keras_utils.get_correct_pred_date] fails for every
    candidate. *)
Theorem short_history_never_resolves pred_date df_first_date df_last_date seq_len :
  valid pred_date -> valid df_first_date -> valid df_last_date ->
  toordinal df_last_date + (if weekday df_last_date =? 4 then 3 else 1)
  < toordinal df_first_date + seq_len ->
  exists e,
    keras_utils.get_correct_pred_date pred_date df_first_date df_last_date
      seq_len = Raise e.
Proof.
  intros Hp Hf Hl Hshort.
  keras_cases pred_date df_first_date df_last_date seq_len Hp Hf Hl; eauto.
  exfalso.
  destruct (Z.eqb_spec (weekday df_last_date) 4) as [Hfri | Hfri];
    repeat match goal with
      | H : ?A -> _, H' : ?A |- _ => specialize (H H')
      end; lia.
Qed.

Lemma short_history_never_resolves_witness :
  exists e,
    keras_utils.get_correct_pred_date (mkdate 2024 1 8) (mkdate 2023 12 1)
      (mkdate 2024 1 5) 60 = Raise e.
Proof.
  apply (short_history_never_resolves (mkdate 2024 1 8) (mkdate 2023 12 1)
           (mkdate 2024 1 5) 60 eq_refl eq_refl eq_refl).
  reflexivity.
Defined.

(** ** [get_prediction_date] *)

Lemma strptime_Raise {U} s e : strptime (U := U) s = Raise e -> e = ValueError.
Proof.
  unfold strptime, new_date.
  destruct (format_regex_match s) as [[[[Y m] d] rest] | ]; [ | congruence].
  destruct (negb _); [congruence | ].
  destruct (check_date_fields _ _ _); congruence.
Qed.

(** X8.  On dates of the calendar, either [get_prediction_date] raises
    [IndexError] exactly when the data is empty and the date is absent or
    is parsed: a date that is not parsed is reported first, and data that is
    not empty never gives [IndexError]. *)
Theorem index_error_iff_empty w df seq_len date :
  valid (now w) -> Forall valid (index df) ->
  (keras_utils.get_prediction_date w df seq_len date = Raise IndexError
   <-> index df = []
       /\ (date = None
           \/ exists s d, date = Some s
                          /\ keras_utils.get_date_from_string s = Ok d))
  /\ (utils.get_prediction_date w df date = Raise IndexError
      <-> index df = []
          /\ (date = None
              \/ exists s d, date = Some s
                             /\ utils.get_date_from_string s = Ok d)).
Proof.
  intros Hnow Hdf.
  assert (Hlast : forall U, match index_last (U := U) df with
                            | Ok l => valid l /\ index df <> []
                            | Raise e => e = IndexError /\ index df = []
                            end).
  { intros U. unfold index_last.
    destruct (rev (index df)) as [ | l t] eqn:E.
    - split; [reflexivity | ].
      apply (f_equal (@rev _)) in E. rewrite rev_involutive in E. exact E.
    - split.
      + rewrite Forall_forall in Hdf. apply Hdf. apply in_rev. rewrite E.
        left. reflexivity.
      + intros Hnil. rewrite Hnil in E. discriminate. }
  split.
  - unfold keras_utils.get_prediction_date.
    assert (Hcore : forall p, valid p ->
      (df_first_date <- index_first df;;
       df_last_date <- index_last df;;
       keras_utils.get_correct_pred_date p df_first_date df_last_date seq_len)
      = Raise IndexError <-> index df = []).
    { intros p Hp. unfold index_first.
      specialize (Hlast keras_utils.error).
      destruct (index df) as [ | f t] eqn:Ei; cbn [bind]; [tauto | ].
      assert (Hvf : valid f) by (inversion Hdf; assumption).
      destruct (index_last df) as [l | e]; cbn [bind].
      - destruct Hlast as [Hvl _]. split; [ | discriminate].
        keras_cases p f l seq_len Hp Hvf Hvl; try discriminate.
        destruct (weekend_snap_spec p Hp) as (m & -> & _). discriminate.
      - destruct Hlast as [_ Hnil]. discriminate. }
    destruct date as [s | ].
    + unfold keras_utils.get_date_from_string, keras_utils.InvalidDateError.
      destruct (strptime s) as [d | e] eqn:Hs; cbn [bind].
      * rewrite (Hcore d (strptime_valid _ _ Hs)).
        split; [intros H; split; [exact H | right] | tauto].
        exists s, d. rewrite Hs. auto.
      * rewrite (strptime_Raise _ _ Hs). cbn [bind]. split; [discriminate | ].
        intros [_ [H | (s' & d & [= <-] & H)]]; [discriminate | ].
        rewrite Hs, (strptime_Raise _ _ Hs) in H. discriminate.
    + cbn [bind]. rewrite (Hcore _ Hnow). tauto.
  - unfold utils.get_prediction_date.
    assert (Hcore : forall p, valid p ->
      (df_last_date <- index_last df;;
       utils.get_correct_pred_date p df_last_date)
      = Raise IndexError <-> index df = []).
    { intros p Hp. specialize (Hlast utils.error).
      destruct (index_last df) as [l | e]; cbn [bind].
      - destruct Hlast as [Hvl Hne]. split; [ | intros; contradiction].
        utils_cases p l Hp Hvl; discriminate.
      - destruct Hlast as [-> Hnil]. tauto. }
    destruct date as [s | ].
    + unfold utils.get_date_from_string.
      destruct (strptime s) as [d | e] eqn:Hs; cbn [bind].
      * rewrite (Hcore d (strptime_valid _ _ Hs)).
        split; [intros H; split; [exact H | right] | tauto].
        exists s, d. auto.
      * rewrite (strptime_Raise _ _ Hs). split; [discriminate | ].
        intros [_ [H | (s' & d & [= <-] & H)]]; [discriminate | ].
        rewrite Hs in H. discriminate.
    + cbn [bind]. rewrite (Hcore _ Hnow). tauto.
Qed.

Lemma index_error_iff_empty_witness :
  keras_utils.get_prediction_date {| now := mkdate 2024 1 8 |}
    {| index := [] |} 60 None = Raise IndexError.
Proof.
  apply (proj1 (index_error_iff_empty {| now := mkdate 2024 1 8 |}
                  {| index := [] |} 60 None eq_refl (Forall_nil _))).
  split; [reflexivity | left; reflexivity].
Defined.

(** ** [get_date_from_string] *)

(** X9.  The two [get_date_from_string] accept the same strings with the
    same dates; on every other string [utils] raises [ValueError] where
    [keras_utils] raises [InvalidDateError]. *)
Theorem parsers_agree s :
  match utils.get_date_from_string s with
  | Ok x => keras_utils.get_date_from_string s = Ok x
  | Raise e =>
      e = ValueError
      /\ keras_utils.get_date_from_string s
         = Raise (UserError (keras_utils.InvalidDateError_ s))
  end.
Proof.
  unfold utils.get_date_from_string, keras_utils.get_date_from_string,
    keras_utils.InvalidDateError, strptime, new_date.
  destruct (format_regex_match s) as [[[[Y m] d] rest] | ]; [ | auto].
  destruct (negb _); [auto | ].
  destruct (check_date_fields _ _ _); auto.
Qed.

Lemma digit_char_digit k :
  0 <= k <= 9 ->
  in_range "0" "9" (digit_char k) = true /\ digit_value (digit_char k) = k.
Proof.
  intros Hk.
  assert (C : In k (map Z.of_nat (seq 0 10))).
  { apply in_map_iff. exists (Z.to_nat k). split; [lia | apply in_seq; lia]. }
  cbv in C. enum_in C k; split; reflexivity.
Qed.

Lemma int_format_0d_4 n :
  0 <= n <= 9999 ->
  int (format_0d 4 n) = n
  /\ exists y1 y2 y3 y4,
       format_0d 4 n = String y1 (String y2 (String y3 (String y4 "")))
       /\ in_range "0" "9" y1 = true /\ in_range "0" "9" y2 = true
       /\ in_range "0" "9" y3 = true /\ in_range "0" "9" y4 = true.
Proof.
  intros Hn. rewrite format_0d_4 by lia.
  assert (R1 : 0 <= n / 1000 <= 9) by (Z.div_mod_to_equations; lia).
  assert (R2 : 0 <= n / 100 mod 10 <= 9) by (Z.div_mod_to_equations; lia).
  assert (R3 : 0 <= n / 10 mod 10 <= 9) by (Z.div_mod_to_equations; lia).
  assert (R4 : 0 <= n mod 10 <= 9) by (Z.div_mod_to_equations; lia).
  destruct (digit_char_digit _ R1) as [D1 V1].
  destruct (digit_char_digit _ R2) as [D2 V2].
  destruct (digit_char_digit _ R3) as [D3 V3].
  destruct (digit_char_digit _ R4) as [D4 V4].
  split; [ | eauto 10].
  unfold int. rewrite lstrip_digit by assumption. cbn [int_digits].
  rewrite V1, V2, V3, V4. Z.div_mod_to_equations. lia.
Qed.

(** The ways [strptime] lets a month and a day be written. *)
Lemma format_regex_match_forms y1 y2 y3 y4 k j ms ds :
  in_range "0" "9" y1 = true -> in_range "0" "9" y2 = true ->
  in_range "0" "9" y3 = true -> in_range "0" "9" y4 = true ->
  1 <= k <= 12 -> 1 <= j <= 31 ->
  ms = format_0d 2 k \/ (k <= 9 /\ ms = format_0d 1 k) ->
  ds = format_0d 2 j
  \/ (j <= 9 /\ (ds = format_0d 1 j \/ ds = String " " (format_0d 1 j))) ->
  format_regex_match
    (String y1 (String y2 (String y3 (String y4 ("-" ++ ms ++ "-" ++ ds)))))
  = Some (String y1 (String y2 (String y3 (String y4 ""))), ms, ds, ""%string)
  /\ int ms = k /\ int ds = j.
Proof.
  intros H1 H2 H3 H4 Hk Hj Hms Hds.
  rewrite format_regex_match_year by assumption.
  assert (Ck : In k (map Z.of_nat (seq 1 12))).
  { apply in_map_iff. exists (Z.to_nat k). split; [lia | apply in_seq; lia]. }
  assert (Cj : In j (map Z.of_nat (seq 1 31))).
  { apply in_map_iff. exists (Z.to_nat j). split; [lia | apply in_seq; lia]. }
  cbv in Ck, Cj.
  enum_in Ck k; enum_in Cj j;
    destruct Hms as [-> | [Hk9 ->]]; try lia;
    destruct Hds as [-> | [Hj9 [-> | ->]]]; try lia;
    repeat split; reflexivity.
Qed.

(** X10.  Both [get_date_from_string] parse every date of the calendar from
    its year in four digits, a dash, its month in two digits or (below 10)
    in one, a dash, and its day in two digits or (below 10) in one digit or
    a blank and one digit. *)
Theorem loose_forms_are_parsed x ms ds :
  valid x ->
  ms = format_0d 2 (month x) \/ (month x <= 9 /\ ms = format_0d 1 (month x)) ->
  ds = format_0d 2 (day x)
  \/ (day x <= 9
      /\ (ds = format_0d 1 (day x) \/ ds = String " " (format_0d 1 (day x)))) ->
  keras_utils.get_date_from_string
    (format_0d 4 (year x) ++ "-" ++ ms ++ "-" ++ ds) = Ok x
  /\ utils.get_date_from_string
       (format_0d 4 (year x) ++ "-" ++ ms ++ "-" ++ ds) = Ok x.
Proof.
  intros Hv Hms Hds. pose proof Hv as Hf. apply valid_fields in Hf.
  destruct Hf as (Hy & Hm & Hd).
  pose proof (days_in_month_pos (year x) (month x) Hm) as Hdim.
  destruct (int_format_0d_4 (year x) ltac:(lia))
    as (HiY & y1 & y2 & y3 & y4 & EY & D1 & D2 & D3 & D4).
  destruct (format_regex_match_forms y1 y2 y3 y4 (month x) (day x) ms ds
              D1 D2 D3 D4 Hm ltac:(lia) Hms Hds) as (Hmatch & Him & Hid).
  assert (Hs : forall U,
            strptime (U := U) (format_0d 4 (year x) ++ "-" ++ ms ++ "-" ++ ds)
            = Ok x).
  { intros U. unfold strptime. rewrite EY. cbn [String.append] in Hmatch |- *.
    rewrite Hmatch. cbn [String.eqb negb]. rewrite <- EY, HiY, Him, Hid.
    unfold new_date. unfold valid in Hv. rewrite Hv. destruct x; reflexivity. }
  split.
  - unfold keras_utils.get_date_from_string. rewrite Hs. reflexivity.
  - apply Hs.
Qed.

Lemma loose_forms_are_parsed_witness :
  keras_utils.get_date_from_string "2024-1- 5" = Ok (mkdate 2024 1 5)
  /\ utils.get_date_from_string "2024-1- 5" = Ok (mkdate 2024 1 5).
Proof.
  apply (loose_forms_are_parsed (mkdate 2024 1 5) "1" " 5" eq_refl).
  - right. split; [vm_compute; discriminate | reflexivity].
  - right. split; [vm_compute; discriminate | right; reflexivity].
Defined.

(** X11.  Both [get_date_from_string] parse the ISO form of a date of the
    calendar back to that date; so two dates with the same ISO form are
    equal. *)
Theorem format_then_parse x :
  valid x ->
  keras_utils.get_date_from_string (isoformat x) = Ok x
  /\ utils.get_date_from_string (isoformat x) = Ok x
  /\ (forall y, valid y -> isoformat y = isoformat x -> y = x).
Proof.
  intros Hv.
  assert (Hparse : forall z, valid z ->
            keras_utils.get_date_from_string (isoformat z) = Ok z
            /\ utils.get_date_from_string (isoformat z) = Ok z).
  { intros z Hz. pose proof Hz as Hf. apply valid_fields in Hf.
    destruct Hf as (Hy & Hm & Hd).
    pose proof (days_in_month_pos (year z) (month z) Hm) as Hdim.
    destruct (int_format_0d_4 (year z) ltac:(lia))
      as (HiY & y1 & y2 & y3 & y4 & EY & D1 & D2 & D3 & D4).
    destruct (format_regex_match_forms y1 y2 y3 y4 (month z) (day z)
                (format_0d 2 (month z)) (format_0d 2 (day z))
                D1 D2 D3 D4 Hm ltac:(lia) (or_introl eq_refl) (or_introl eq_refl))
      as (Hmatch & Him & Hid).
    assert (Hs : forall U, strptime (U := U) (isoformat z) = Ok z).
    { intros U. unfold strptime, isoformat. rewrite EY. cbn [String.append] in Hmatch |- *.
      rewrite Hmatch. cbn [String.eqb negb]. rewrite <- EY, HiY, Him, Hid.
      unfold new_date. unfold valid in Hz. rewrite Hz. destruct z; reflexivity. }
    split.
    - unfold keras_utils.get_date_from_string. rewrite Hs. reflexivity.
    - apply Hs. }
  destruct (Hparse x Hv) as [Hk Hu].
  split; [exact Hk | split; [exact Hu | ]].
  intros y Hy E. destruct (Hparse y Hy) as [Hky _]. rewrite E in Hky. congruence.
Qed.

Lemma format_then_parse_witness :
  keras_utils.get_date_from_string (isoformat (mkdate 2024 2 29))
  = Ok (mkdate 2024 2 29).
Proof. exact (proj1 (format_then_parse (mkdate 2024 2 29) eq_refl)). Defined.

(** ** [get_checkpoint_path] *)

Import posixpath.

Lemma string_append_inj_l (a x y : string) : (a ++ x = a ++ y -> x = y)%string.
Proof. induction a as [ | c a IH]; cbn; [auto | intros [= H]; auto]. Qed.

Lemma string_length_append (a b : string) :
  String.length (a ++ b) = (String.length a + String.length b)%nat.
Proof. induction a as [ | c a IH]; cbn; [reflexivity | rewrite IH; reflexivity]. Qed.

Lemma string_append_inj_r (x y a : string) : (x ++ a = y ++ a -> x = y)%string.
Proof.
  revert y. induction x as [ | c x IH]; intros [ | d y] H.
  - reflexivity.
  - exfalso. apply (f_equal String.length) in H. cbn in H.
    rewrite string_length_append in H. lia.
  - exfalso. apply (f_equal String.length) in H. cbn in H.
    rewrite string_length_append in H. lia.
  - cbn in H. injection H as -> H. f_equal. apply IH. exact H.
Qed.

Lemma string_append_assoc (a b c : string) : ((a ++ b) ++ c = a ++ (b ++ c))%string.
Proof. induction a as [ | x a IH]; cbn; [reflexivity | rewrite IH; reflexivity]. Qed.

Lemma endswith_sep_app a t :
  t <> ""%string -> endswith_sep (a ++ t) = endswith_sep t.
Proof.
  intros Ht. induction a as [ | c a IH]; [reflexivity | ].
  cbn [String.append]. destruct (a ++ t)%string as [ | d r] eqn:E.
  - destruct a; [cbn in E; contradiction | discriminate].
  - rewrite <- IH. reflexivity.
Qed.

Lemma no_sep_start t : contains_sep t = false -> startswith_sep t = false.
Proof.
  destruct t as [ | c r]; cbn; [reflexivity | ].
  intros H. apply orb_false_iff in H. tauto.
Qed.

Lemma no_sep_end t : contains_sep t = false -> endswith_sep t = false.
Proof.
  induction t as [ | c r IH]; [reflexivity | ].
  cbn [contains_sep]. intros H. apply orb_false_iff in H as [Hc Hr].
  destruct r as [ | d r]; [exact Hc | ]. apply IH. exact Hr.
Qed.

Lemma checkpoint_path_shape dirname SAVED ticker :
  contains_sep ticker = false ->
  exists base,
    (forall t, contains_sep t = false ->
       join (join dirname SAVED) t = (base ++ t)%string)
    /\ keras_model.get_checkpoint_path dirname SAVED ticker
       = (base ++ ticker
          ++ (if String.eqb ticker "" then "cp.ckpt" else "/cp.ckpt"))%string
    /\ (ticker = ""%string -> base = ""%string \/ endswith_sep base = true).
Proof.
  intros Ht.
  remember (join dirname SAVED) as bp eqn:Ebp.
  exists (if (String.eqb bp "") || endswith_sep bp then bp
          else (bp ++ String sep "")%string).
  assert (Hjoin : forall t, contains_sep t = false ->
            join bp t
            = ((if (String.eqb bp "") || endswith_sep bp then bp
                else (bp ++ String sep "")%string) ++ t)%string).
  { intros t Hn. unfold join at 1. rewrite (no_sep_start t Hn).
    destruct ((String.eqb bp "") || endswith_sep bp); [reflexivity | ].
    rewrite string_append_assoc. reflexivity. }
  split; [exact Hjoin | ].
  unfold keras_model.get_checkpoint_path. cbv zeta. rewrite <- Ebp, (Hjoin ticker Ht).
  set (B := if (String.eqb bp "") || endswith_sep bp then bp
            else (bp ++ String sep "")%string).
  assert (HB : B = ""%string \/ endswith_sep B = true).
  { unfold B. destruct (String.eqb_spec bp "") as [-> | Hne]; cbn [orb]; [auto | ].
    destruct (endswith_sep bp) eqn:E; [auto | ].
    right. rewrite endswith_sep_app by discriminate. reflexivity. }
  split; [ | auto].
  unfold join. change (startswith_sep "cp.ckpt") with false. cbv iota.
  destruct (String.eqb_spec ticker "") as [-> | Hne].
  - assert (E : (B ++ "")%string = B).
    { clear. induction B; cbn; [reflexivity | f_equal; assumption]. }
    rewrite E.
    destruct HB as [-> | ->]; [reflexivity | ].
    rewrite orb_true_r. reflexivity.
  - rewrite endswith_sep_app by assumption.
    rewrite (no_sep_end ticker Ht), orb_false_r.
    destruct (String.eqb_spec (B ++ ticker) "") as [E | _].
    + exfalso. destruct B; cbn in E; [contradiction | discriminate].
    + rewrite string_append_assoc. reflexivity.
Qed.

(** X13.  Two different tickers without a separator get different
    checkpoint paths. *)
Theorem checkpoint_paths_distinct dirname SAVED t1 t2 :
  contains_sep t1 = false -> contains_sep t2 = false ->
  t1 <> t2 ->
  keras_model.get_checkpoint_path dirname SAVED t1 <> keras_model.get_checkpoint_path dirname SAVED t2.
Proof.
  intros H1 H2 Hne E. apply Hne.
  destruct (checkpoint_path_shape dirname SAVED t1 H1) as (B & HB & E1 & _).
  destruct (checkpoint_path_shape dirname SAVED t2 H2) as (B' & HB' & E2 & _).
  assert (B' = B).
  { pose proof (HB ""%string) as X. pose proof (HB' ""%string) as Y.
    rewrite (X eq_refl) in Y. specialize (Y eq_refl).
    assert (Z : forall s, (s ++ "")%string = s)
      by (induction s; cbn; [reflexivity | f_equal; assumption]).
    rewrite !Z in Y. auto. }
  subst B'. rewrite E1, E2 in E. apply string_append_inj_l in E.
  destruct (String.eqb_spec t1 "") as [-> | N1];
    destruct (String.eqb_spec t2 "") as [-> | N2]; [reflexivity | | | ].
  - exfalso. cbn [String.append] in E.
    apply (f_equal String.length) in E. rewrite string_length_append in E. cbn in E. lia.
  - exfalso. cbn [String.append] in E.
    apply (f_equal String.length) in E. rewrite string_length_append in E. cbn in E. lia.
  - apply string_append_inj_r in E. exact E.
Qed.

Lemma checkpoint_paths_distinct_witness :
  keras_model.get_checkpoint_path "/srv/app/model" "saved_models" "TCS"
  <> keras_model.get_checkpoint_path "/srv/app/model" "saved_models" "INFY".
Proof.
  apply checkpoint_paths_distinct; [reflexivity | reflexivity | discriminate].
Defined.

(** X14.  For a ticker that starts with the separator the checkpoint path
    is the ticker joined with [cp.ckpt]: it does not depend on the module's
    directory nor on [SAVED_MODELS_BASE_PATH]. *)
Theorem absolute_ticker_leaves_saved_models dirname SAVED rest :
  keras_model.get_checkpoint_path dirname SAVED (String sep rest)
  = join (String sep rest) "cp.ckpt"
  /\ forall dirname' SAVED',
       keras_model.get_checkpoint_path dirname' SAVED' (String sep rest)
       = keras_model.get_checkpoint_path dirname SAVED (String sep rest).
Proof.
  assert (H : forall d S,
            keras_model.get_checkpoint_path d S (String sep rest)
            = join (String sep rest) "cp.ckpt").
  { intros d S. unfold keras_model.get_checkpoint_path. cbv zeta.
    unfold join at 2. reflexivity. }
  split; [apply H | ]. intros d S. rewrite !H. reflexivity.
Qed.

(** X15.  A ticker and the same ticker followed by a separator get the
    same checkpoint path. *)
Theorem trailing_separator_is_ignored dirname SAVED ticker :
  ticker <> ""%string -> contains_sep ticker = false ->
  keras_model.get_checkpoint_path dirname SAVED (ticker ++ String sep "")
  = keras_model.get_checkpoint_path dirname SAVED ticker.
Proof.
  intros Hne Hns.
  destruct (checkpoint_path_shape dirname SAVED ticker Hns) as (B & HB & E & _).
  rewrite E. destruct (String.eqb_spec ticker "") as [ | _]; [contradiction | ].
  unfold keras_model.get_checkpoint_path. cbv zeta.
  assert (Hstart : startswith_sep (ticker ++ String sep "") = false).
  { destruct ticker as [ | c r]; [contradiction | ].
    cbn. cbn in Hns. apply orb_false_iff in Hns. tauto. }
  assert (Hj : join (join dirname SAVED) (ticker ++ String sep "")
               = (B ++ ticker ++ String sep "")%string).
  { pose proof (HB ticker Hns) as Ht.
    remember (join dirname SAVED) as bp eqn:Ebp. unfold join in Ht |- *.
    rewrite Hstart. rewrite (no_sep_start ticker Hns) in Ht.
    destruct ((String.eqb bp "") || endswith_sep bp).
    - rewrite <- string_append_assoc, Ht. apply string_append_assoc.
    - change (String sep (ticker ++ String sep ""))
        with (String sep ticker ++ String sep "")%string.
      rewrite <- string_append_assoc, Ht. apply string_append_assoc. }
  rewrite Hj. unfold join. change (startswith_sep "cp.ckpt") with false. cbv iota.
  assert (Hend : endswith_sep (B ++ ticker ++ String sep "") = true).
  { rewrite <- string_append_assoc. rewrite endswith_sep_app by discriminate. reflexivity. }
  rewrite Hend, orb_true_r. rewrite !string_append_assoc. reflexivity.
Qed.

Lemma trailing_separator_is_ignored_witness :
  keras_model.get_checkpoint_path "/srv/app/model" "saved_models" "TCS/"
  = keras_model.get_checkpoint_path "/srv/app/model" "saved_models" "TCS".
Proof.
  apply (trailing_separator_is_ignored "/srv/app/model" "saved_models" "TCS");
    [discriminate | reflexivity].
Defined.
